(** * ReefGuard: role-based access control of [core/decorators.py]

    A shallow embedding of the decorators and mixins of
    [src/core/decorators.py], together with the part of Django they are
    composed with ([login_required], [LoginRequiredMixin],
    [UserPassesTestMixin], [AccessMixin], [messages.error]), and the
    properties the specification states about them; then the home page
    view of [src/core/views.py] and the routes of [src/core/urls.py]. *)

From Stdlib Require Import ZArith String Ascii List Bool DecimalString DecimalN.
From stdpp Require Import base strings list gmap.

Open Scope string_scope.
Open Scope list_scope.

(** ** Data model *)

(** Modelled from the spec: the user model of the project
    ([core/models.py] is not among the sources).  A requester is either
    Django's [AnonymousUser], which is not authenticated and carries no
    [role] attribute, or a saved instance of the project's user model,
    with primary key [pk] and a [role] string. *)
Inductive principal : Type :=
| AnonymousUser
| User (pk : Z) (role : string).

(** The Python values an attribute of a model instance can hold. *)
Inductive value : Type :=
| VNone
| VStr (s : string)
| VInt (n : Z)
| VUser (u : principal).

(** [request]: the object identity ([id(request)]), [request.user] and
    the path the login redirect returns to. *)
Record HttpRequest : Type := {
  req_id : nat;
  user : principal;
  path : string
}.

(** [*args, **kwargs] of a view call. *)
Record call_args : Type := {
  args : list value;
  kwargs : list (string * value)
}.

Inductive HttpResponse : Type :=
| Response (status : Z) (content : string)
| RedirectToLogin (next : string).

Inductive exn : Type :=
| PermissionDenied
| AttributeError (attr : string)
| Http404
| OtherError (name : string).

Inductive outcome (A : Type) : Type :=
| Return (a : A)
| Raise (e : exn).
Arguments Return {A} a.
Arguments Raise {A} e.

(** [django.contrib.messages]: levels and the per-request storage. *)
Inductive level : Type := DEBUG | INFO | SUCCESS | WARNING | ERROR.

Definition message : Type := level * string.

(** The message storages of the live requests, by request identity. *)
Abbreviation storage := (gmap nat (list message)).

(** What a guard does with its collaborators, in program order. *)
Inductive event : Type :=
| EvIsAuthenticated                                (* request.user.is_authenticated *)
| EvRole                                           (* request.user.role *)
| EvGetObject                                      (* self.get_object() *)
| EvRedirectToLogin                                (* redirect_to_login(...) *)
| EvHandler (request : HttpRequest) (a : call_args). (* the wrapped handler is entered *)

(** ** The effect monad: message storage, exceptions, and the journal *)

Definition M (A : Type) : Type := storage -> outcome A * storage * list event.

Definition ret {A} (a : A) : M A := fun st => (Return a, st, []).

Definition raise {A} (e : exn) : M A := fun st => (Raise e, st, []).

Definition bind {A B} (c : M A) (k : A -> M B) : M B :=
  fun st =>
    match c st with
    | (Return a, st1, t1) =>
        match k a st1 with
        | (o, st2, t2) => (o, st2, t1 ++ t2)
        end
    | (Raise e, st1, t1) => (Raise e, st1, t1)
    end.

Definition tell (es : list event) : M unit := fun st => (Return tt, st, es).

Declare Scope guard_scope.
Delimit Scope guard_scope with guard.
Notation "'let*' x := c1 'in' c2" := (bind c1 (fun x => c2))
  (at level 10, x name, c1 at level 100, c2 at level 200) : guard_scope.
Notation "c1 >> c2" := (bind c1 (fun _ => c2))
  (at level 60, right associativity) : guard_scope.
Open Scope guard_scope.

(** A request handler as the framework sees it: it may add messages and
    may raise, it does not see the journal. *)
Definition handler : Type :=
  HttpRequest -> call_args -> storage -> outcome HttpResponse * storage.

(** A view in the monad. *)
Definition view : Type := HttpRequest -> call_args -> M HttpResponse.

(** [view_func(request, *args, **kwargs)] *)
Definition invoke (view_func : handler) : view :=
  fun request a st =>
    match view_func request a st with
    | (o, st') => (o, st', [EvHandler request a])
    end.

(** ** Python and Django primitives *)

(** [x in roles], for a tuple or list of strings: the first element
    equal to [x] decides. *)
Fixpoint py_in (x : string) (roles : list string) : bool :=
  match roles with
  | [] => false
  | y :: roles' => if String.eqb y x then true else py_in x roles'
  end.

(** [sep.join(l)] *)
Fixpoint join (sep : string) (l : list string) : string :=
  match l with
  | [] => ""
  | [x] => x
  | x :: l' => x +:+ sep +:+ join sep l'
  end.

(** The value of [u.is_authenticated]. *)
Definition authenticated (u : principal) : bool :=
  match u with
  | AnonymousUser => false
  | User _ _ => true
  end.

(** The [role] attribute of [u], when it has one. *)
Definition role_attr (u : principal) : option string :=
  match u with
  | AnonymousUser => None
  | User _ r => Some r
  end.

(** [request.user.is_authenticated] *)
Definition is_authenticated (u : principal) : M bool :=
  tell [EvIsAuthenticated] >> ret (authenticated u).

(** [request.user.role]; [AnonymousUser] has no such attribute. *)
Definition role_of (u : principal) : M string :=
  tell [EvRole] >>
  match role_attr u with
  | None => raise (AttributeError "role")
  | Some r => ret r
  end.

(** [messages.error(request, text)]: appends to the storage of [request]
    (the message middleware is installed, so the call does not fail). *)
Definition messages_error (request : HttpRequest) (text : string) : M unit :=
  fun st =>
    (Return tt,
     <[req_id request := (st !!! req_id request) ++ [(ERROR, text)]]> st,
     []).

(** [django.contrib.auth.views.redirect_to_login] *)
Definition redirect_to_login (request : HttpRequest) : M HttpResponse :=
  tell [EvRedirectToLogin] >> ret (RedirectToLogin (path request)).

(** [django.contrib.auth.decorators.login_required] *)
Definition login_required (view_func : view) : view :=
  fun request a =>
    let* ok := is_authenticated (user request) in
    if ok then view_func request a else redirect_to_login request.

(** ** The function guard (lines 14-60) *)

(** The role policy, line 27: [request.user.role in roles]. *)
Definition permits (user_role : string) (allowed : list string) : bool :=
  py_in user_role allowed.

(** The text of lines 32 and 85-86. *)
Definition denial_message (roles : list string) : string :=
  "Access denied. This feature requires " +:+ join " or " roles +:+ " role.".

(** The body of [wrapper], lines 27-34, before [login_required] is
    applied to it. *)
Definition wrapper (roles : list string) (view_func : handler) : view :=
  fun request a =>
    let* r := role_of (user request) in
    if permits r roles then
      invoke view_func request a
    else
      messages_error request (denial_message roles) >>
      raise PermissionDenied.

(** [decorator], lines 23-35: [wraps] copies the name and docstring of
    [view_func] only. *)
Definition decorator (roles : list string) (view_func : handler) : view :=
  login_required (wrapper roles view_func).

Definition role_required (roles : list string) : handler -> view :=
  decorator roles.

Definition admin_required (view_func : handler) : view :=
  role_required ["admin"] view_func.

Definition researcher_or_admin_required (view_func : handler) : view :=
  role_required ["admin"; "researcher"] view_func.

(** ** Django's access mixins ([django.contrib.auth.mixins]) *)

Module AccessMixin.
(** [if self.raise_exception or self.request.user.is_authenticated:
       raise PermissionDenied(...)
     return redirect_to_login(...)] *)
Definition handle_no_permission (raise_exception : bool)
    (request : HttpRequest) : M HttpResponse :=
  let* deny :=
    (if raise_exception then ret true
     else is_authenticated (user request)) in
  if deny then raise PermissionDenied else redirect_to_login request.
End AccessMixin.

Module LoginRequiredMixin.
(** [if not request.user.is_authenticated:
       return self.handle_no_permission()
     return super().dispatch(request, *args, **kwargs)];
    the two methods found through [self] and [super()] are arguments. *)
Definition dispatch (handle_no_permission : M HttpResponse)
    (super_dispatch : view) : view :=
  fun request a =>
    let* ok := is_authenticated (user request) in
    if negb ok then handle_no_permission else super_dispatch request a.
End LoginRequiredMixin.

Module UserPassesTestMixin.
(** [user_test_result = self.get_test_func()()
     if not user_test_result:
       return self.handle_no_permission()
     return super().dispatch(request, *args, **kwargs)] *)
Definition dispatch (test_func : M bool)
    (handle_no_permission : M HttpResponse) (super_dispatch : view) : view :=
  fun request a =>
    let* user_test_result := test_func in
    if negb user_test_result then handle_no_permission
    else super_dispatch request a.
End UserPassesTestMixin.

(** ** The class-based guard (lines 63-111) *)

Module RoleRequiredMixin.
(** The class attributes of a view class [V(RoleRequiredMixin, ...)]:
    [base_dispatch] is the [dispatch] of the generic view that follows
    the mixins in the method resolution order. *)
Record class : Type := {
  allowed_roles : list string;
  raise_exception : bool;
  base_dispatch : handler
}.

(** An instance, after [View.setup] has stored the request. *)
Record self : Type := {
  cls : class;
  request : HttpRequest
}.

Definition test_func (s : self) : M bool :=
  match allowed_roles (cls s) with
  | [] => ret true
  | _ :: _ =>
      let* r := role_of (user (request s)) in
      ret (py_in r (allowed_roles (cls s)))
  end.

Definition handle_no_permission (s : self) : M HttpResponse :=
  let* logged_in := is_authenticated (user (request s)) in
  if logged_in then
    messages_error (request s) (denial_message (allowed_roles (cls s))) >>
    raise PermissionDenied
  else
    AccessMixin.handle_no_permission (raise_exception (cls s)) (request s).

(** [dispatch] is inherited: [LoginRequiredMixin.dispatch], then
    [UserPassesTestMixin.dispatch], then the generic view. *)
Definition dispatch (s : self) : view :=
  LoginRequiredMixin.dispatch (handle_no_permission s)
    (UserPassesTestMixin.dispatch (test_func s) (handle_no_permission s)
       (invoke (base_dispatch (cls s)))).

(** [View.as_view()]: build the instance, [setup], [dispatch]. *)
Definition as_view (c : class) : view :=
  fun req a => dispatch {| cls := c; request := req |} req a.

(** A view class that sets nothing: [allowed_roles = []] (line 72) and
    Django's [raise_exception = False]. *)
Definition default (base : handler) : class :=
  {| allowed_roles := []; raise_exception := false; base_dispatch := base |}.
End RoleRequiredMixin.

Definition AdminRequiredMixin (base : handler) : RoleRequiredMixin.class :=
  {| RoleRequiredMixin.allowed_roles := ["admin"];
     RoleRequiredMixin.raise_exception := false;
     RoleRequiredMixin.base_dispatch := base |}.

Definition ResearcherOrAdminMixin (base : handler) : RoleRequiredMixin.class :=
  {| RoleRequiredMixin.allowed_roles := ["admin"; "researcher"];
     RoleRequiredMixin.raise_exception := false;
     RoleRequiredMixin.base_dispatch := base |}.

(** ** The ownership guard (lines 114-138) *)

(** A model instance: its attributes by name. *)
Abbreviation pyobject := (gmap string value).

(** [obj.name] *)
Definition py_getattr (obj : pyobject) (name : string) : outcome value :=
  match obj !! name with
  | Some v => Return v
  | None => Raise (AttributeError name)
  end.

(** [getattr(obj, name, default)]: the default replaces an
    [AttributeError], other exceptions pass. *)
Definition getattr (obj : pyobject) (name : string) (default : value)
  : outcome value :=
  match py_getattr obj name with
  | Return v => Return v
  | Raise (AttributeError _) => Return default
  | Raise e => Raise e
  end.

(** [u1 == u2] on users: [Model.__eq__] compares primary keys,
    [AnonymousUser.__eq__] the class. *)
Definition user_eq (u1 u2 : principal) : bool :=
  match u1, u2 with
  | AnonymousUser, AnonymousUser => true
  | User pk1 _, User pk2 _ => (pk1 =? pk2)%Z
  | _, _ => false
  end.

(** [v == request.user] *)
Definition eq_user (v : value) (u : principal) : bool :=
  match v with
  | VUser u' => user_eq u' u
  | _ => false
  end.

Definition lift {A} (o : outcome A) : M A := fun st => (o, st, []).

Module StaffOrOwnerMixin.
(** The class attributes of a view class [V(StaffOrOwnerMixin, ...)];
    [get_object] is the object lookup of the generic view. *)
Record class : Type := {
  owner_field : string;
  raise_exception : bool;
  get_object : HttpRequest -> call_args -> storage -> outcome pyobject * storage;
  base_dispatch : handler
}.

Record self : Type := {
  cls : class;
  request : HttpRequest;
  view_args : call_args
}.

(** [self.get_object()] *)
Definition call_get_object (s : self) : M pyobject :=
  fun st =>
    match get_object (cls s) (request s) (view_args s) st with
    | (o, st') => (o, st', [EvGetObject])
    end.

Definition permission_message : string :=
  "You do not have permission to access this resource.".

Definition dispatch (s : self) : view :=
  fun request a =>
    let* obj := call_get_object s in
    let* owner := lift (getattr obj (owner_field (cls s)) VNone) in
    let* r := role_of (user request) in
    if py_in r ["admin"; "researcher"] || eq_user owner (user request) then
      LoginRequiredMixin.dispatch
        (AccessMixin.handle_no_permission (raise_exception (cls s)) request)
        (invoke (base_dispatch (cls s))) request a
    else
      messages_error request permission_message >>
      raise PermissionDenied.

Definition as_view (c : class) : view :=
  fun req a =>
    dispatch {| cls := c; request := req; view_args := a |} req a.

(** A view class that keeps [owner_field = 'user'] (line 123). *)
Definition default
    (lookup : HttpRequest -> call_args -> storage -> outcome pyobject * storage)
    (base : handler) : class :=
  {| owner_field := "user"; raise_exception := false;
     get_object := lookup; base_dispatch := base |}.
End StaffOrOwnerMixin.

(** ** Observing an evaluation *)

(** What one evaluation of a guarded view yields: the outcome, the
    message storages afterwards, and the journal of the evaluation. *)
Abbreviation result := (outcome HttpResponse * gmap nat (list message) * list event)%type.

Definition outcome_of (res : result) : outcome HttpResponse := res.1.1.
Definition storage_of (res : result) : gmap nat (list message) := res.1.2.
Definition journal_of (res : result) : list event := res.2.

(** [messages.get_messages(request)] *)
Definition get_messages (request : HttpRequest) (st : gmap nat (list message))
  : list message := st !!! req_id request.

Definition is_handler_event (e : event) : bool :=
  match e with
  | EvHandler _ _ => true
  | _ => false
  end.

(** The wrapped handler was entered during the evaluation. *)
Definition handler_entered (t : list event) : bool := existsb is_handler_event t.

(** Attribute reads are not effects: the calls made to collaborators. *)
Definition is_call (e : event) : bool :=
  match e with
  | EvIsAuthenticated | EvRole => false
  | _ => true
  end.

Definition calls (t : list event) : list event := List.filter is_call t.

(** The behaviour a client or a collaborator can tell apart. *)
Definition behaviour (res : result)
  : outcome HttpResponse * gmap nat (list message) * list event :=
  (outcome_of res, storage_of res, calls (journal_of res)).

Inductive verdict : Type :=
| Permit                 (* the handler ran *)
| Deny                   (* PermissionDenied, the handler did not run *)
| Login                  (* a response without the handler: the login redirect *)
| Failed (e : exn).      (* another exception, the handler did not run *)

Definition verdict_of (res : result) : verdict :=
  if handler_entered (journal_of res) then Permit
  else match outcome_of res with
       | Return _ => Login
       | Raise PermissionDenied => Deny
       | Raise e => Failed e
       end.

(** The decision of a role guard as a function of the role set and the
    requester alone. *)
Definition role_decision (roles : list string) (u : principal) : verdict :=
  match role_attr u with
  | None => Login
  | Some r => if permits r roles then Permit else Deny
  end.

(** Storage after [messages.error(request, text)]. *)
Definition with_error (request : HttpRequest) (text : string)
    (st : gmap nat (list message)) : gmap nat (list message) :=
  <[req_id request := get_messages request st ++ [(ERROR, text)]]> st.

(** The value the ownership guard compares with the requester. *)
Definition owner_of (c : StaffOrOwnerMixin.class) (obj : pyobject) : value :=
  default VNone (obj !! StaffOrOwnerMixin.owner_field c).

(** The test of line 131, for a requester that has a role. *)
Definition staff_or_owner (r : string) (owner : value) (u : principal) : bool :=
  py_in r ["admin"; "researcher"] || eq_user owner u.

(** The requester's role is "admin" or "researcher". *)
Definition privileged (u : principal) : Prop :=
  role_attr u = Some "admin" \/ role_attr u = Some "researcher".

(** The requester is authenticated, and is privileged or equals the
    value of the owner field of [obj]. *)
Definition may_access (c : StaffOrOwnerMixin.class) (obj : pyobject)
    (u : principal) : Prop :=
  authenticated u = true /\ (privileged u \/ eq_user (owner_of c obj) u = true).

(** The contract of the ownership guard in the words of the
    specification: once the object is found, the handler is entered
    exactly when the requester may access it, and every other request
    ends with [PermissionDenied]. *)
Definition staff_or_owner_contract (c : StaffOrOwnerMixin.class)
    (req : HttpRequest) (a : call_args) (st : gmap nat (list message)) : Prop :=
  forall obj st1,
    StaffOrOwnerMixin.get_object c req a st = (Return obj, st1) ->
    (handler_entered (journal_of (StaffOrOwnerMixin.as_view c req a st)) = true
     <-> may_access c obj (user req)) /\
    (~ may_access c obj (user req) ->
     outcome_of (StaffOrOwnerMixin.as_view c req a st) = Raise PermissionDenied).

(** The decision of a view built on the role mixin, from its class
    attributes and the requester alone. *)
Definition mixin_decision (c : RoleRequiredMixin.class) (u : principal)
  : verdict :=
  match role_attr u with
  | None => if RoleRequiredMixin.raise_exception c then Deny else Login
  | Some r =>
      match RoleRequiredMixin.allowed_roles c with
      | [] => Permit
      | _ :: _ =>
          if py_in r (RoleRequiredMixin.allowed_roles c) then Permit else Deny
      end
  end.

(** Evaluate a view on one request and then, in the storage the first
    evaluation left, on a second one; the two verdicts. *)
Definition twice (v : view) (req1 req2 : HttpRequest) (a1 a2 : call_args)
    (st : gmap nat (list message)) : verdict * verdict :=
  let res1 := v req1 a1 st in
  (verdict_of res1, verdict_of (v req2 a2 (storage_of res1))).

(** What a denial does to the message storages: one error message after
    the earlier messages of the denied request, nothing for any other
    request. *)
Definition one_error_added (req : HttpRequest) (text : string)
    (before after : gmap nat (list message)) : Prop :=
  get_messages req after = get_messages req before ++ [(ERROR, text)] /\
  (forall req', req_id req' <> req_id req ->
                get_messages req' after = get_messages req' before).

(** ** The role set as a stored object *)

Module Stored.
(** The state an evaluation runs in: besides the message storages, the
    object that holds the role set of the guard, which is the tuple
    [roles] that [decorator] and [wrapper] close over, or the list bound
    to [allowed_roles]. *)
Record state : Type := {
  role_set : list string;
  messages : gmap nat (list message)
}.

Definition comp (A : Type) : Type := state -> outcome A * state * list event.

Definition unit_ {A} (x : A) : comp A := fun s => (Return x, s, []).

Definition fail {A} (e : exn) : comp A := fun s => (Raise e, s, []).

Definition seq {A B} (c : comp A) (k : A -> comp B) : comp B :=
  fun s =>
    match c s with
    | (Return x, s1, t1) =>
        match k x s1 with
        | (o, s2, t2) => (o, s2, t1 ++ t2)
        end
    | (Raise e, s1, t1) => (Raise e, s1, t1)
    end.

(** A primitive of the framework: it works on the message storages and
    cannot reach the role set. *)
Definition on_messages {A} (c : M A) : comp A :=
  fun s =>
    match c (messages s) with
    | (o, st', t) => (o, {| role_set := role_set s; messages := st' |}, t)
    end.

(** Evaluating the variable [roles], or the attribute
    [self.allowed_roles]. *)
Definition read_roles : comp (list string) :=
  fun s => (Return (role_set s), s, []).

(** A handler is arbitrary code: it can reach the whole state. *)
Definition handler : Type :=
  HttpRequest -> call_args -> state -> outcome HttpResponse * state.

Definition view : Type := HttpRequest -> call_args -> comp HttpResponse.

Definition invoke (view_func : handler) : view :=
  fun request a s =>
    match view_func request a s with
    | (o, s') => (o, s', [EvHandler request a])
    end.

Definition login_required (view_func : view) : view :=
  fun request a =>
    seq (on_messages (is_authenticated (user request))) (fun ok =>
    if ok then view_func request a
    else on_messages (redirect_to_login request)).

(** [messages.error(request, f'... {" or ".join(roles)} role.')] *)
Definition deny (request : HttpRequest) : comp HttpResponse :=
  seq read_roles (fun roles =>
  seq (on_messages (messages_error request (denial_message roles))) (fun _ =>
  fail PermissionDenied)).

(** [wrapper], lines 26-34. *)
Definition wrapper (view_func : handler) : view :=
  fun request a =>
    seq (on_messages (role_of (user request))) (fun r =>
    seq read_roles (fun roles =>
    if permits r roles then invoke view_func request a
    else deny request)).

(** The decorated view; the tuple [roles] given to [role_required] is
    the [role_set] of the state. *)
Definition role_required (view_func : handler) : view :=
  login_required (wrapper view_func).

(** The state when the guard has just been defined with [roles]. *)
Definition defined (roles : list string) (st : gmap nat (list message))
  : state := {| role_set := roles; messages := st |}.

(** The class attributes other than [allowed_roles], which is the
    [role_set] of the state. *)
Record class : Type := {
  raise_exception : bool;
  base_dispatch : handler
}.

(** [test_func], lines 74-78. *)
Definition test_func (request : HttpRequest) : comp bool :=
  seq read_roles (fun roles =>
  match roles with
  | [] => unit_ true
  | _ :: _ =>
      seq (on_messages (role_of (user request))) (fun r =>
      seq read_roles (fun roles' =>
      unit_ (py_in r roles')))
  end).

(** [handle_no_permission], lines 80-89. *)
Definition handle_no_permission (c : class) (request : HttpRequest)
  : comp HttpResponse :=
  seq (on_messages (is_authenticated (user request))) (fun logged_in =>
  if logged_in then deny request
  else
    on_messages
      (AccessMixin.handle_no_permission (raise_exception c) request)).

(** The inherited [dispatch]: [LoginRequiredMixin.dispatch], then
    [UserPassesTestMixin.dispatch], then the generic view. *)
Definition dispatch (c : class) : view :=
  fun request a =>
    seq (on_messages (is_authenticated (user request))) (fun ok =>
    if negb ok then handle_no_permission c request
    else
      seq (test_func request) (fun user_test_result =>
      if negb user_test_result then handle_no_permission c request
      else invoke (base_dispatch c) request a)).

(** What the first model sees of an evaluation. *)
Definition project (res : outcome HttpResponse * state * list event)
  : outcome HttpResponse * gmap nat (list message) * list event :=
  (res.1.1, messages res.1.2, res.2).

(** The handler as the first model sees it, with the role set [roles]
    in place. *)
Definition forget (view_func : handler) (roles : list string)
  : HttpRequest -> call_args -> gmap nat (list message)
    -> outcome HttpResponse * gmap nat (list message) :=
  fun request a st =>
    match view_func request a {| role_set := roles; messages := st |} with
    | (o, s') => (o, messages s')
    end.

(** The view class of the first model that has [roles] as its
    [allowed_roles]. *)
Definition as_class (c : class) (roles : list string)
  : RoleRequiredMixin.class :=
  {| RoleRequiredMixin.allowed_roles := roles;
     RoleRequiredMixin.raise_exception := raise_exception c;
     RoleRequiredMixin.base_dispatch := forget (base_dispatch c) roles |}.

(** The handler leaves the role set as it finds it. *)
Definition keeps_role_set (view_func : handler) : Prop :=
  forall request a s, role_set (view_func request a s).2 = role_set s.

(** Two evaluations in sequence: the two verdicts and the role set
    afterwards. *)
Definition twice (v : view) (req1 req2 : HttpRequest) (a1 a2 : call_args)
    (s : state) : verdict * verdict * list string :=
  let res1 := v req1 a1 s in
  let res2 := v req2 a2 res1.1.2 in
  (verdict_of (project res1), verdict_of (project res2), role_set res2.1.2).
End Stored.

(** ** Sample data *)

Module Sample.
Definition ok_handler : handler :=
  fun _ _ st => (Return (Response 200 "ok"), st).

Definition request_of (u : principal) : HttpRequest :=
  {| req_id := 1; user := u; path := "/events/3/edit/" |}.

Definition pk3 : call_args := {| args := []; kwargs := [("pk", VInt 3)] |}.

Definition member : principal := User 7 "member".
Definition other_member : principal := User 8 "member".
Definition admin : principal := User 1 "admin".
Definition researcher : principal := User 2 "researcher".

(** An event reported by [member]. *)
Definition event_of_member : pyobject :=
  {[ "reported_by" := VUser member; "title" := VStr "bleaching" ]}.

Definition found (obj : pyobject)
  : HttpRequest -> call_args -> gmap nat (list message)
    -> outcome pyobject * gmap nat (list message) :=
  fun _ _ st => (Return obj, st).

Definition edit_event : StaffOrOwnerMixin.class :=
  {| StaffOrOwnerMixin.owner_field := "reported_by";
     StaffOrOwnerMixin.raise_exception := false;
     StaffOrOwnerMixin.get_object := found event_of_member;
     StaffOrOwnerMixin.base_dispatch := ok_handler |}.
End Sample.

Module StoredSample.
(** A handler that answers and rebinds the role set to ["member"]. *)
Definition rebinding_handler : Stored.handler :=
  fun _ _ s =>
    (Return (Response 200 "ok"),
     {| Stored.role_set := ["member"]; Stored.messages := Stored.messages s |}).

(** A handler that answers and leaves the state alone. *)
Definition quiet_handler : Stored.handler :=
  fun _ _ s => (Return (Response 200 "ok"), s).
End StoredSample.

(** ** The home page view ([core/views.py]) *)

(** Modelled from the spec: the catalogue models of [core/models.py]
    (not among the sources), with the fields the view reads. *)
Record Article : Type := {
  article_pk : Z;
  published : bool;
  featured : bool
}.

Record Reef : Type := {
  reef_pk : Z
}.

Record Event : Type := {
  event_pk : Z;
  reef : Z
}.

(** The three tables at the time of the request, each in the order in
    which its default manager returns the rows. *)
Record database : Type := {
  articles : list Article;
  events : list Event;
  reefs : list Reef
}.

(** What a template context can hold here. *)
Inductive context_value : Type :=
| CArticles (rows : list Article)
| CEvents (rows : list Event)
| CCount (n : nat)
| CValue (v : value).

Module HomeView.
Definition template_name : string := "core/home.html".

(** [Article.objects.filter(published=True, featured=True)] *)
Definition featured_filter (a : Article) : Prop :=
  published a = true /\ featured a = true.

(** [get_context_data], lines 8-15; [super_context] is what
    [super().get_context_data] returned.  [select_related]
    only fetches the reef of each event with it. *)
Definition get_context_data (db : database)
    (super_context : gmap string context_value) : gmap string context_value :=
  let context := super_context in
  let context :=
    <["featured_articles" :=
        CArticles (take 3 (filter featured_filter (articles db)))]> context in
  let context := <["recent_events" := CEvents (take 5 (events db))]> context in
  let context := <["reef_count" := CCount (length (reefs db))]> context in
  let context := <["event_count" := CCount (length (events db))]> context in
  context.
End HomeView.

(** ** The URL configuration ([core/urls.py]) *)

(** A route of [path()]: literal text and [<int:name>] converters. *)
Inductive segment : Type :=
| Lit (text : string)
| IntConverter (name : string).

Record URLPattern : Type := {
  route : list segment;
  view_class : string;
  url_name : string
}.


Module urls.
(** ['']; ['events/']; ['events/<int:pk>/'] *)
Definition urlpatterns : list URLPattern :=
  [ {| route := []; view_class := "HomeView"; url_name := "home" |};
    {| route := [Lit "events/"];
       view_class := "EventListView"; url_name := "event_list" |};
    {| route := [Lit "events/"; IntConverter "pk"; Lit "/"];
       view_class := "EventDetailView"; url_name := "event_detail" |} ].

(** The characters of the converter's pattern [[0-9]]. *)
Definition is_digit (c : Ascii.ascii) : bool :=
  match c with
  | "0" | "1" | "2" | "3" | "4" | "5" | "6" | "7" | "8" | "9" => true
  | _ => false
  end%char.

Fixpoint all_digits (s : string) : bool :=
  match s with
  | EmptyString => true
  | String c s' => is_digit c && all_digits s'
  end.

(** The longest run of digits at the start of [s], and the rest. *)
Fixpoint span_digits (s : string) : string * string :=
  match s with
  | EmptyString => (EmptyString, EmptyString)
  | String c s' =>
      if is_digit c then
        match span_digits s' with
        | (d, rest) => (String c d, rest)
        end
      else (EmptyString, s)
  end.

(** [s] without the prefix [p], when it starts with [p]. *)
Fixpoint strip_prefix (p s : string) : option string :=
  match p with
  | EmptyString => Some s
  | String a p' =>
      match s with
      | EmptyString => None
      | String b s' => if Ascii.eqb a b then strip_prefix p' s' else None
      end
  end.

(** The regular expression of a route, matched on the whole remaining
    path, with the text each converter captured: literals must be there,
    [[0-9]+] takes a non-empty run of digits (what follows a converter in
    a route of the table starts with ["/"], so the run is the greedy
    one), and nothing may be left over. *)
Fixpoint regex_match (segs : list segment) (s : string)
  : option (list (string * string)) :=
  match segs with
  | [] => if String.eqb s "" then Some [] else None
  | Lit text :: segs' =>
      match strip_prefix text s with
      | Some s' => regex_match segs' s'
      | None => None
      end
  | IntConverter name :: segs' =>
      match span_digits s with
      | (d, s') =>
          if String.eqb d "" then None
          else
            match regex_match segs' s' with
            | Some groups => Some ((name, d) :: groups)
            | None => None
            end
      end
  end.

(** [sys.int_info.default_max_str_digits] *)
Definition max_str_digits : nat := 4300.

(** [IntConverter.to_python]: [int(value)] of a run of digits, which
    raises [ValueError] (here [None]) beyond the digit limit. *)
Definition to_python (d : string) : option N :=
  if Nat.leb (String.length d) max_str_digits then
    match NilEmpty.uint_of_string d with
    | Some u => Some (N.of_uint u)
    | None => None
    end
  else None.

(** The captured texts through their converters; a [ValueError] of one
    of them makes the route not match. *)
Fixpoint convert (groups : list (string * string)) : option (gmap string N) :=
  match groups with
  | [] => Some ∅
  | (name, d) :: groups' =>
      match to_python d with
      | Some n =>
          match convert groups' with
          | Some kw => Some (<[name := n]> kw)
          | None => None
          end
      | None => None
      end
  end.

(** [RoutePattern.match] *)
Definition match_route (segs : list segment) (s : string)
  : option (gmap string N) :=
  match regex_match segs s with
  | Some groups => convert groups
  | None => None
  end.

(** The first pattern that matches decides. *)
Fixpoint resolve_in (patterns : list URLPattern) (s : string)
  : option (string * gmap string N) :=
  match patterns with
  | [] => None
  | p :: patterns' =>
      match match_route (route p) s with
      | Some kw => Some (url_name p, kw)
      | None => resolve_in patterns' s
      end
  end.

(** [resolve(path)] with this module as the root URLconf: the root
    resolver takes the leading ["/"], the patterns the rest; [None]
    stands for [Resolver404]. *)
Definition resolve (path : string) : option (string * gmap string N) :=
  match strip_prefix "/" path with
  | Some rest => resolve_in urlpatterns rest
  | None => None
  end.







End urls.


(** [r] does not start with a digit. *)
Definition no_digit_ahead (r : string) : Prop :=
  match r with
  | EmptyString => True
  | String c _ => urls.is_digit c = false
  end.

(** ** Shared lemmas: what each guard computes *)

(** Expose the state, outcome and journal passing of the primitives. *)
Ltac run_monad :=
  unfold is_authenticated, role_of, invoke, redirect_to_login, messages_error,
    with_error, get_messages, lift, bind, tell, ret, raise.

Lemma py_in_elem_of (x : string) (l : list string) : py_in x l = true <-> x ∈ l.
Proof.
  induction l as [|y l IH]; simpl.
  - split; [discriminate | intros H; inversion H].
  - destruct (String.eqb_spec y x) as [->|Hne].
    + split; [intros _; left | reflexivity].
    + rewrite IH, elem_of_cons. split; [tauto | intros [->|H]; [done | exact H]].
Qed.

Lemma py_in_false (x : string) (l : list string) : py_in x l = false <-> x ∉ l.
Proof.
  rewrite <- py_in_elem_of. destruct (py_in x l); split; congruence.
Qed.

Lemma role_required_run (roles : list string) (h : handler)
    (req : HttpRequest) (a : call_args) (st : gmap nat (list message)) :
  role_required roles h req a st =
  match role_attr (user req) with
  | None =>
      (Return (RedirectToLogin (path req)), st,
       [EvIsAuthenticated; EvRedirectToLogin])
  | Some r =>
      if permits r roles then
        ((h req a st).1, (h req a st).2,
         [EvIsAuthenticated; EvRole; EvHandler req a])
      else
        (Raise PermissionDenied, with_error req (denial_message roles) st,
         [EvIsAuthenticated; EvRole])
  end.
Proof.
  unfold role_required, decorator, wrapper, login_required. run_monad.
  destruct (user req) as [|pk r]; simpl; [reflexivity|].
  destruct (permits r roles); [|reflexivity].
  destruct (h req a st) as [o st']. reflexivity.
Qed.

Lemma role_mixin_run (c : RoleRequiredMixin.class)
    (req : HttpRequest) (a : call_args) (st : gmap nat (list message)) :
  RoleRequiredMixin.as_view c req a st =
  match role_attr (user req) with
  | None =>
      if RoleRequiredMixin.raise_exception c then
        (Raise PermissionDenied, st, [EvIsAuthenticated; EvIsAuthenticated])
      else
        (Return (RedirectToLogin (path req)), st,
         [EvIsAuthenticated; EvIsAuthenticated; EvIsAuthenticated;
          EvRedirectToLogin])
  | Some r =>
      match RoleRequiredMixin.allowed_roles c with
      | [] =>
          ((RoleRequiredMixin.base_dispatch c req a st).1,
           (RoleRequiredMixin.base_dispatch c req a st).2,
           [EvIsAuthenticated; EvHandler req a])
      | _ :: _ =>
          if py_in r (RoleRequiredMixin.allowed_roles c) then
            ((RoleRequiredMixin.base_dispatch c req a st).1,
             (RoleRequiredMixin.base_dispatch c req a st).2,
             [EvIsAuthenticated; EvRole; EvHandler req a])
          else
            (Raise PermissionDenied,
             with_error req (denial_message (RoleRequiredMixin.allowed_roles c)) st,
             [EvIsAuthenticated; EvRole; EvIsAuthenticated])
      end
  end.
Proof.
  unfold RoleRequiredMixin.as_view, RoleRequiredMixin.dispatch,
    LoginRequiredMixin.dispatch, UserPassesTestMixin.dispatch,
    RoleRequiredMixin.handle_no_permission, RoleRequiredMixin.test_func,
    AccessMixin.handle_no_permission. run_monad.
  destruct c as [roles rex base]; simpl.
  destruct (user req) as [|pk r]; simpl.
  - destruct rex; reflexivity.
  - destruct roles as [|r0 roles]; simpl.
    + destruct (base req a st) as [o st']. reflexivity.
    + destruct (if String.eqb r0 r then true else py_in r roles); simpl;
        [|reflexivity].
      destruct (base req a st) as [o st']. reflexivity.
Qed.

Lemma getattr_lookup (obj : pyobject) (name : string) (d : value) :
  getattr obj name d = Return (default d (obj !! name)).
Proof.
  unfold getattr, py_getattr. destruct (obj !! name); reflexivity.
Qed.

Lemma staff_owner_run (c : StaffOrOwnerMixin.class)
    (req : HttpRequest) (a : call_args) (st : gmap nat (list message)) :
  StaffOrOwnerMixin.as_view c req a st =
  match StaffOrOwnerMixin.get_object c req a st with
  | (Raise e, st1) => (Raise e, st1, [EvGetObject])
  | (Return obj, st1) =>
      match role_attr (user req) with
      | None => (Raise (AttributeError "role"), st1, [EvGetObject; EvRole])
      | Some r =>
          if staff_or_owner r (owner_of c obj) (user req) then
            ((StaffOrOwnerMixin.base_dispatch c req a st1).1,
             (StaffOrOwnerMixin.base_dispatch c req a st1).2,
             [EvGetObject; EvRole; EvIsAuthenticated; EvHandler req a])
          else
            (Raise PermissionDenied,
             with_error req StaffOrOwnerMixin.permission_message st1,
             [EvGetObject; EvRole])
      end
  end.
Proof.
  unfold StaffOrOwnerMixin.as_view, StaffOrOwnerMixin.dispatch,
    StaffOrOwnerMixin.call_get_object, staff_or_owner, owner_of.
  destruct c as [field rex lookup base]; simpl.
  unfold bind at 1.
  destruct (lookup req a st) as [[obj|e] st1]; [|reflexivity].
  unfold bind at 1, lift. rewrite getattr_lookup.
  unfold LoginRequiredMixin.dispatch, AccessMixin.handle_no_permission.
  run_monad.
  destruct (user req) as [|pk r]; simpl; [reflexivity|].
  match goal with |- context [if ?b then _ else _] => destruct b end; simpl;
    [|reflexivity].
  destruct (base req a st1) as [o st']. reflexivity.
Qed.

Lemma handler_entered_elem (t : list event) :
  handler_entered t = true <-> exists r a, EvHandler r a ∈ t.
Proof.
  unfold handler_entered. rewrite existsb_exists. split.
  - intros [[] [Hin He]]; try discriminate.
    eexists _, _. apply list_elem_of_In. exact Hin.
  - intros (r & a & Hin). exists (EvHandler r a). split; [|reflexivity].
    apply list_elem_of_In. exact Hin.
Qed.

Lemma str_app_nil_r (s : string) : s +:+ "" = s.
Proof.
  induction s as [|ch s IH]; [reflexivity|].
  change (String ch (s +:+ "") = String ch s). by rewrite IH.
Qed.

Lemma str_app_assoc (s1 s2 s3 : string) :
  (s1 +:+ s2) +:+ s3 = s1 +:+ s2 +:+ s3.
Proof.
  induction s1 as [|ch s1 IH]; [reflexivity|].
  change (String ch ((s1 +:+ s2) +:+ s3) = String ch (s1 +:+ s2 +:+ s3)).
  by rewrite IH.
Qed.

Lemma join_contains (sep r : string) (l : list string) :
  r ∈ l -> exists pre post, join sep l = pre +:+ r +:+ post.
Proof.
  induction l as [|x l IH]; intros Hin; [inversion Hin|].
  apply elem_of_cons in Hin as [->|Hin].
  - destruct l as [|y l].
    + exists "", "". exact (eq_sym (str_app_nil_r x)).
    + exists "", (sep +:+ join sep (y :: l)). reflexivity.
  - destruct (IH Hin) as (pre & post & Heq).
    destruct l as [|y l]; [inversion Hin|].
    exists (x +:+ sep +:+ pre), post.
    change (join sep (x :: y :: l)) with (x +:+ sep +:+ join sep (y :: l)).
    by rewrite Heq, !str_app_assoc.
Qed.

(** [join] is the library's [String.concat]. *)
Lemma join_concat (sep : string) (l : list string) :
  join sep l = String.concat sep l.
Proof.
  induction l as [|x l IH]; [reflexivity|].
  destruct l as [|y l]; [reflexivity|].
  change (x +:+ sep +:+ join sep (y :: l) =
          x +:+ sep +:+ String.concat sep (y :: l)).
  by rewrite IH.
Qed.

(** ** The claims *)

(** C1 (what the code does): an unauthenticated request is redirected to
    the login page by the function guard, and by the role mixin of a view
    class that keeps [raise_exception = False], without the handler being
    entered; the ownership mixin, whose [dispatch] reads
    [request.user.role] before the inherited login check, ends with
    [AttributeError] on it, not with the redirect. *)
Theorem C1_unauthenticated_outcomes
    (req : HttpRequest) (a : call_args) (st : gmap nat (list message))
    (Hanon : user req = AnonymousUser) :
  (forall roles h,
      role_required roles h req a st =
      (Return (RedirectToLogin (path req)), st,
       [EvIsAuthenticated; EvRedirectToLogin])) /\
  (forall c, RoleRequiredMixin.raise_exception c = false ->
      outcome_of (RoleRequiredMixin.as_view c req a st) =
        Return (RedirectToLogin (path req)) /\
      storage_of (RoleRequiredMixin.as_view c req a st) = st /\
      handler_entered (journal_of (RoleRequiredMixin.as_view c req a st)) = false) /\
  (forall c obj st1,
      StaffOrOwnerMixin.get_object c req a st = (Return obj, st1) ->
      StaffOrOwnerMixin.as_view c req a st =
      (Raise (AttributeError "role"), st1, [EvGetObject; EvRole])).
Proof.
  split; [|split].
  - intros roles h. rewrite role_required_run, Hanon. reflexivity.
  - intros c Hrex. rewrite role_mixin_run, Hanon, Hrex. simpl. done.
  - intros c obj st1 Hobj. rewrite staff_owner_run, Hobj, Hanon. reflexivity.
Qed.

Lemma C1_unauthenticated_outcomes_witness :
  StaffOrOwnerMixin.as_view Sample.edit_event
      (Sample.request_of AnonymousUser) Sample.pk3 ∅ =
    (Raise (AttributeError "role"), ∅, [EvGetObject; EvRole]).
Proof.
  destruct (C1_unauthenticated_outcomes (Sample.request_of AnonymousUser)
              Sample.pk3 ∅ eq_refl) as (_ & _ & Howner).
  apply (Howner Sample.edit_event Sample.event_of_member). reflexivity.
Defined.

(** C2: [test_func] of the role mixin has no effect on the storage and
    returns true exactly when [allowed_roles] is empty or the requester's
    role is one of them; a view class that leaves [allowed_roles] at its
    default lets every authenticated user through to the handler. *)
Theorem C2_test_func_iff
    (c : RoleRequiredMixin.class) (req : HttpRequest)
    (st : gmap nat (list message)) :
  (exists o t,
      RoleRequiredMixin.test_func
        {| RoleRequiredMixin.cls := c; RoleRequiredMixin.request := req |} st =
        (o, st, t) /\
      (o = Return true <->
       RoleRequiredMixin.allowed_roles c = [] \/
       exists r, role_attr (user req) = Some r /\
                 r ∈ RoleRequiredMixin.allowed_roles c) /\
      (forall r, role_attr (user req) = Some r -> exists b, o = Return b)) /\
  (forall base a,
      authenticated (user req) = true ->
      RoleRequiredMixin.as_view (RoleRequiredMixin.default base) req a st =
      ((base req a st).1, (base req a st).2,
       [EvIsAuthenticated; EvHandler req a])).
Proof.
  split.
  - unfold RoleRequiredMixin.test_func; simpl.
    destruct (RoleRequiredMixin.allowed_roles c) as [|r0 roles] eqn:Hroles.
    + exists (Return true), []. split; [reflexivity|].
      split; [|by eexists]. split; [by left | done].
    + unfold role_of, bind, tell, ret, raise.
      destruct (role_attr (user req)) as [r|].
      * exists (Return (py_in r (r0 :: roles))), [EvRole].
        split; [reflexivity|]. split; [|by eexists].
        split.
        -- intros [= H]. right. exists r. by rewrite <- py_in_elem_of.
        -- intros [|(r' & [= <-] & Hin)]; [done|].
           apply py_in_elem_of in Hin. by rewrite Hin.
      * exists (Raise (AttributeError "role")), [EvRole].
        split; [reflexivity|]. split; [|done].
        split; [done|]. by intros [|(r' & ? & _)].
  - intros base a Hauth. rewrite role_mixin_run.
    destruct (user req); [discriminate | reflexivity].
Qed.

Lemma C2_test_func_iff_witness :
  RoleRequiredMixin.as_view (RoleRequiredMixin.default Sample.ok_handler)
      (Sample.request_of Sample.member) Sample.pk3 ∅ =
    (Return (Response 200 "ok"), ∅,
     [EvIsAuthenticated;
      EvHandler (Sample.request_of Sample.member) Sample.pk3]).
Proof.
  destruct (C2_test_func_iff (AdminRequiredMixin Sample.ok_handler)
              (Sample.request_of Sample.member) ∅) as [_ Hdefault].
  apply Hdefault. reflexivity.
Defined.

(** C3: the role policy of the function guard permits a role exactly when
    it is a member of the guard's role set, and the guard enters the
    handler for an authenticated requester exactly in that case; with an
    empty set the function guard denies every role, whereas [test_func]
    of the mixin with an empty [allowed_roles] returns true for every
    requester. *)
Theorem C3_permits_iff_member (r : string) (S : list string) :
  (permits r S = true <-> r ∈ S) /\
  (forall h pk i p a st,
      handler_entered
        (journal_of
           (role_required S h {| req_id := i; user := User pk r; path := p |} a st))
        = true <-> r ∈ S) /\
  permits r [] = false /\
  (forall h pk i p a st,
      role_required [] h {| req_id := i; user := User pk r; path := p |} a st =
      (Raise PermissionDenied,
       with_error {| req_id := i; user := User pk r; path := p |}
         (denial_message []) st,
       [EvIsAuthenticated; EvRole])) /\
  (forall base rex req st,
      RoleRequiredMixin.test_func
        {| RoleRequiredMixin.cls :=
             {| RoleRequiredMixin.allowed_roles := [];
                RoleRequiredMixin.raise_exception := rex;
                RoleRequiredMixin.base_dispatch := base |};
           RoleRequiredMixin.request := req |} st = (Return true, st, [])).
Proof.
  split; [apply py_in_elem_of|]. split; [|split; [reflexivity|split]].
  - intros h pk i p a st. rewrite role_required_run; simpl.
    rewrite <- py_in_elem_of. unfold permits.
    destruct (py_in r S); simpl; split; congruence.
  - intros h pk i p a st. rewrite role_required_run. reflexivity.
  - reflexivity.
Qed.

Lemma staff_or_owner_true (c : StaffOrOwnerMixin.class) (obj : pyobject)
    (pk : Z) (r : string) :
  staff_or_owner r (owner_of c obj) (User pk r) = true <->
  may_access c obj (User pk r).
Proof.
  unfold staff_or_owner, may_access, privileged.
  cbn [py_in authenticated role_attr].
  destruct (String.eqb_spec "admin" r) as [<-|Ha].
  { split; [intros _; split; [done | by left; left] | done]. }
  destruct (String.eqb_spec "researcher" r) as [<-|Hr].
  { split; [intros _; split; [done | by left; right] | done]. }
  cbn [orb]. split.
  - intros H. split; [reflexivity | right; exact H].
  - intros [_ [[H|H]|H]]; [congruence | congruence | exact H].
Qed.

(** C4 (as the code has it): once [get_object] has returned the target,
    the ownership guard enters the handler exactly when the requester is
    authenticated and either has role "admin" or "researcher" or equals
    the value of the configured owner field, and then yields the
    handler's result; an authenticated requester that is neither is
    denied with the generic message and [PermissionDenied]. *)
Theorem C4_staff_or_owner_permits
    (c : StaffOrOwnerMixin.class) (req : HttpRequest) (a : call_args)
    (st st1 : gmap nat (list message)) (obj : pyobject)
    (Hobj : StaffOrOwnerMixin.get_object c req a st = (Return obj, st1)) :
  (handler_entered (journal_of (StaffOrOwnerMixin.as_view c req a st)) = true
   <-> may_access c obj (user req)) /\
  (may_access c obj (user req) ->
   StaffOrOwnerMixin.as_view c req a st =
   ((StaffOrOwnerMixin.base_dispatch c req a st1).1,
    (StaffOrOwnerMixin.base_dispatch c req a st1).2,
    [EvGetObject; EvRole; EvIsAuthenticated; EvHandler req a])) /\
  (authenticated (user req) = true -> ~ may_access c obj (user req) ->
   StaffOrOwnerMixin.as_view c req a st =
   (Raise PermissionDenied,
    with_error req StaffOrOwnerMixin.permission_message st1,
    [EvGetObject; EvRole])).
Proof.
  rewrite staff_owner_run, Hobj.
  destruct (user req) as [|pk r] eqn:Hu; simpl.
  - split; [|split].
    + split; [discriminate | intros [H _]; discriminate].
    + intros [H _]. discriminate.
    + discriminate.
  - pose proof (staff_or_owner_true c obj pk r) as Hiff.
    destruct (staff_or_owner r (owner_of c obj) (User pk r)); simpl.
    + split; [|split].
      * split; [intros _; by apply Hiff | done].
      * done.
      * intros _ Hno. destruct Hno. by apply Hiff.
    + split; [|split].
      * split; [discriminate | intros H; by apply Hiff].
      * intros H. apply Hiff in H. discriminate.
      * done.
Qed.

Lemma C4_staff_or_owner_permits_witness :
  handler_entered
    (journal_of
       (StaffOrOwnerMixin.as_view Sample.edit_event
          (Sample.request_of Sample.member) Sample.pk3 ∅)) = true /\
  StaffOrOwnerMixin.as_view Sample.edit_event
      (Sample.request_of Sample.other_member) Sample.pk3 ∅ =
    (Raise PermissionDenied,
     with_error (Sample.request_of Sample.other_member)
       StaffOrOwnerMixin.permission_message ∅,
     [EvGetObject; EvRole]).
Proof.
  split.
  - apply (C4_staff_or_owner_permits Sample.edit_event
             (Sample.request_of Sample.member) Sample.pk3 ∅ ∅
             Sample.event_of_member eq_refl).
    split; [reflexivity | right; reflexivity].
  - apply (C4_staff_or_owner_permits Sample.edit_event
             (Sample.request_of Sample.other_member) Sample.pk3 ∅ ∅
             Sample.event_of_member eq_refl).
    + reflexivity.
    + intros [_ [[H|H]|H]]; discriminate.
Defined.

(** C4, counterexample to the claim as stated: an anonymous request to an
    ownership-guarded view of an existing object is not let through, and
    it does not end with [PermissionDenied]. *)
Lemma C4_contract_fails_for_anonymous :
  ~ staff_or_owner_contract Sample.edit_event
      (Sample.request_of AnonymousUser) Sample.pk3 ∅.
Proof.
  intros H.
  destruct (H Sample.event_of_member ∅ eq_refl) as [_ Hdeny].
  assert (Hno : ~ may_access Sample.edit_event Sample.event_of_member
                    (user (Sample.request_of AnonymousUser))).
  { intros [Hauth _]. discriminate. }
  specialize (Hdeny Hno). vm_compute in Hdeny. discriminate.
Qed.

(** C5: for an authenticated requester whose role is not in the role set
    of the function guard, the evaluation ends with [PermissionDenied],
    the only change of the storage is one error message appended to the
    messages of the request, and the journal holds the two attribute
    reads and no entry of the handler, whatever the handler is.  The
    message is "Access denied. This feature requires ", then the allowed
    roles in the order of the role set with " or " between consecutive
    ones, then " role.": for the roles X and Y it reads "Access denied.
    This feature requires X or Y role.", for a single role X "Access
    denied. This feature requires X role.", and every allowed role
    occurs in it. *)
Theorem C5_denied_message_and_error
    (roles : list string) (h : handler) (req : HttpRequest) (a : call_args)
    (st : gmap nat (list message)) (pk : Z) (r : string)
    (Huser : user req = User pk r) (Hnot : r ∉ roles) :
  role_required roles h req a st =
    (Raise PermissionDenied,
     <[req_id req :=
         get_messages req st ++
         [(ERROR,
           "Access denied. This feature requires "
           +:+ String.concat " or " roles +:+ " role.")]]> st,
     [EvIsAuthenticated; EvRole]) /\
  (forall req' a',
      EvHandler req' a' ∉ journal_of (role_required roles h req a st)) /\
  (forall x y,
      roles = [x; y] ->
      get_messages req (storage_of (role_required roles h req a st)) =
      get_messages req st ++
      [(ERROR,
        "Access denied. This feature requires " +:+ x +:+ " or " +:+ y
        +:+ " role.")]) /\
  (forall x,
      roles = [x] ->
      get_messages req (storage_of (role_required roles h req a st)) =
      get_messages req st ++
      [(ERROR, "Access denied. This feature requires " +:+ x +:+ " role.")]) /\
  (forall x,
      x ∈ roles ->
      exists pre post,
        get_messages req (storage_of (role_required roles h req a st)) =
        get_messages req st ++
        [(ERROR,
          ("Access denied. This feature requires " +:+ pre) +:+ x +:+ post
          +:+ " role.")]).
Proof.
  apply py_in_false in Hnot.
  assert (Hrun : role_required roles h req a st =
                 (Raise PermissionDenied,
                  with_error req (denial_message roles) st,
                  [EvIsAuthenticated; EvRole])).
  { rewrite role_required_run, Huser. cbn [role_attr]. unfold permits.
    rewrite Hnot. reflexivity. }
  assert (Hmsg : get_messages req (storage_of (role_required roles h req a st))
                 = get_messages req st ++ [(ERROR, denial_message roles)]).
  { rewrite Hrun. unfold storage_of, with_error, get_messages. cbn [fst snd].
    by rewrite lookup_total_insert_eq. }
  split; [|split; [|split; [|split]]].
  - rewrite Hrun. unfold with_error, denial_message.
    by rewrite join_concat.
  - intros req' a' Hin.
    assert (Hent : handler_entered (journal_of (role_required roles h req a st))
                   = true).
    { apply handler_entered_elem. eauto. }
    rewrite Hrun in Hent. discriminate.
  - intros x y ->. rewrite Hmsg. unfold denial_message. cbn [join].
    by rewrite !str_app_assoc.
  - intros x ->. rewrite Hmsg. reflexivity.
  - intros x Hx. destruct (join_contains " or " x roles Hx) as (pre & post & Heq).
    exists pre, post. rewrite Hmsg. unfold denial_message. rewrite Heq.
    by rewrite !str_app_assoc.
Qed.

Lemma C5_denied_message_and_error_witness :
  role_required ["admin"; "researcher"] Sample.ok_handler
      (Sample.request_of Sample.member) Sample.pk3 ∅ =
    (Raise PermissionDenied,
     {[ 1 := [(ERROR,
               "Access denied. This feature requires admin or researcher role.")] ]},
     [EvIsAuthenticated; EvRole]).
Proof.
  destruct (C5_denied_message_and_error ["admin"; "researcher"]
              Sample.ok_handler (Sample.request_of Sample.member) Sample.pk3
              ∅ 7%Z "member" eq_refl) as [Hrun _].
  - intros H. apply py_in_elem_of in H. discriminate.
  - rewrite Hrun. reflexivity.
Defined.

(** C6: for an authenticated requester whose role is in the role set of
    the function guard, the evaluation is the handler's: it is entered
    once, with the request and arguments the guard received and in the
    storage the guard received, and its outcome and storage are the
    guard's; the guard adds the two attribute reads to the journal and
    nothing else. *)
Theorem C6_permitted_passes_through
    (roles : list string) (h : handler) (req : HttpRequest) (a : call_args)
    (st : gmap nat (list message)) (pk : Z) (r : string)
    (Huser : user req = User pk r) (Hin : r ∈ roles) :
  role_required roles h req a st =
    ((h req a st).1, (h req a st).2,
     [EvIsAuthenticated; EvRole; EvHandler req a]).
Proof.
  apply py_in_elem_of in Hin.
  rewrite role_required_run, Huser; simpl. unfold permits. rewrite Hin.
  reflexivity.
Qed.

Lemma C6_permitted_passes_through_witness :
  role_required ["admin"; "researcher"] Sample.ok_handler
      (Sample.request_of Sample.admin) Sample.pk3 ∅ =
    (Return (Response 200 "ok"), ∅,
     [EvIsAuthenticated; EvRole;
      EvHandler (Sample.request_of Sample.admin) Sample.pk3]).
Proof.
  apply (C6_permitted_passes_through ["admin"; "researcher"]
           Sample.ok_handler (Sample.request_of Sample.admin) Sample.pk3 ∅
           1%Z "admin" eq_refl).
  apply py_in_elem_of. reflexivity.
Defined.

(** C7: when the target object has no attribute named by [owner_field],
    the plain attribute access would raise [AttributeError], but
    [getattr] with its default returns [None], [None] equals no
    requester, and the guard decides on the role alone: a privileged
    requester reaches the handler and any other authenticated requester
    is denied with [PermissionDenied]. *)
Theorem C7_absent_owner_is_no_match
    (c : StaffOrOwnerMixin.class) (obj : pyobject)
    (Habsent : obj !! StaffOrOwnerMixin.owner_field c = None) :
  py_getattr obj (StaffOrOwnerMixin.owner_field c) =
    Raise (AttributeError (StaffOrOwnerMixin.owner_field c)) /\
  getattr obj (StaffOrOwnerMixin.owner_field c) VNone = Return VNone /\
  (forall u, eq_user (owner_of c obj) u = false) /\
  (forall req a st st1 pk r,
      StaffOrOwnerMixin.get_object c req a st = (Return obj, st1) ->
      user req = User pk r ->
      StaffOrOwnerMixin.as_view c req a st =
      if py_in r ["admin"; "researcher"] then
        ((StaffOrOwnerMixin.base_dispatch c req a st1).1,
         (StaffOrOwnerMixin.base_dispatch c req a st1).2,
         [EvGetObject; EvRole; EvIsAuthenticated; EvHandler req a])
      else
        (Raise PermissionDenied,
         with_error req StaffOrOwnerMixin.permission_message st1,
         [EvGetObject; EvRole])).
Proof.
  assert (Howner : owner_of c obj = VNone).
  { unfold owner_of. rewrite Habsent. reflexivity. }
  split; [|split; [|split]].
  - unfold py_getattr. rewrite Habsent. reflexivity.
  - rewrite getattr_lookup, Habsent. reflexivity.
  - intros u. rewrite Howner. reflexivity.
  - intros req a st st1 pk r Hobj Hu.
    rewrite staff_owner_run, Hobj, Hu. cbn [role_attr].
    unfold staff_or_owner. rewrite Howner. cbn [eq_user].
    rewrite orb_false_r. reflexivity.
Qed.

Lemma C7_absent_owner_is_no_match_witness :
  StaffOrOwnerMixin.as_view
      (StaffOrOwnerMixin.default (Sample.found Sample.event_of_member)
         Sample.ok_handler)
      (Sample.request_of Sample.member) Sample.pk3 ∅ =
    (Raise PermissionDenied,
     with_error (Sample.request_of Sample.member)
       StaffOrOwnerMixin.permission_message ∅,
     [EvGetObject; EvRole]).
Proof.
  destruct (C7_absent_owner_is_no_match
              (StaffOrOwnerMixin.default (Sample.found Sample.event_of_member)
                 Sample.ok_handler)
              Sample.event_of_member eq_refl) as (_ & _ & _ & Hrun).
  apply (Hrun (Sample.request_of Sample.member) Sample.pk3 ∅ ∅ 7%Z "member");
    reflexivity.
Defined.

(** C8: [admin_required] is the function guard for the role "admin" and
    [researcher_or_admin_required] the one for "admin" and "researcher";
    a view built on [AdminRequiredMixin] or [ResearcherOrAdminMixin]
    behaves, on every request, arguments and storage, as its handler
    under the preset of the same roles: same outcome, same messages, same
    calls to the handler and to the login redirect. *)
Theorem C8_presets_agree (h : handler) :
  admin_required h = role_required ["admin"] h /\
  researcher_or_admin_required h = role_required ["admin"; "researcher"] h /\
  (forall req a st,
      behaviour (RoleRequiredMixin.as_view (AdminRequiredMixin h) req a st) =
      behaviour (admin_required h req a st)) /\
  (forall req a st,
      behaviour (RoleRequiredMixin.as_view (ResearcherOrAdminMixin h) req a st) =
      behaviour (researcher_or_admin_required h req a st)).
Proof.
  split; [reflexivity|]. split; [reflexivity|].
  split; intros req a st.
  - unfold admin_required. rewrite role_mixin_run, role_required_run.
    unfold permits. cbn [AdminRequiredMixin RoleRequiredMixin.allowed_roles
      RoleRequiredMixin.raise_exception RoleRequiredMixin.base_dispatch].
    destruct (role_attr (user req)) as [r|]; [|reflexivity].
    destruct (py_in r ["admin"]); reflexivity.
  - unfold researcher_or_admin_required.
    rewrite role_mixin_run, role_required_run.
    unfold permits. cbn [ResearcherOrAdminMixin RoleRequiredMixin.allowed_roles
      RoleRequiredMixin.raise_exception RoleRequiredMixin.base_dispatch].
    destruct (role_attr (user req)) as [r|]; [|reflexivity].
    destruct (py_in r ["admin"; "researcher"]); reflexivity.
Qed.

Lemma role_required_verdict (roles : list string) (h : handler)
    (req : HttpRequest) (a : call_args) (st : gmap nat (list message)) :
  verdict_of (role_required roles h req a st) = role_decision roles (user req).
Proof.
  rewrite role_required_run. unfold role_decision.
  destruct (role_attr (user req)) as [r|]; [|reflexivity].
  destruct (permits r roles); reflexivity.
Qed.

Lemma role_mixin_verdict (c : RoleRequiredMixin.class)
    (req : HttpRequest) (a : call_args) (st : gmap nat (list message)) :
  verdict_of (RoleRequiredMixin.as_view c req a st) = mixin_decision c (user req).
Proof.
  rewrite role_mixin_run. unfold mixin_decision.
  destruct (role_attr (user req)) as [r|].
  - destruct (RoleRequiredMixin.allowed_roles c) as [|r0 roles]; [reflexivity|].
    destruct (py_in r (r0 :: roles)); reflexivity.
  - destruct (RoleRequiredMixin.raise_exception c); reflexivity.
Qed.

Lemma stored_role_required_run (h : Stored.handler)
    (req : HttpRequest) (a : call_args) (s : Stored.state) :
  Stored.role_required h req a s =
  match role_attr (user req) with
  | None =>
      (Return (RedirectToLogin (path req)), s,
       [EvIsAuthenticated; EvRedirectToLogin])
  | Some r =>
      if permits r (Stored.role_set s) then
        ((h req a s).1, (h req a s).2,
         [EvIsAuthenticated; EvRole; EvHandler req a])
      else
        (Raise PermissionDenied,
         {| Stored.role_set := Stored.role_set s;
            Stored.messages :=
              with_error req (denial_message (Stored.role_set s))
                (Stored.messages s) |},
         [EvIsAuthenticated; EvRole])
  end.
Proof.
  destruct s as [roles st].
  unfold Stored.role_required, Stored.login_required, Stored.wrapper,
    Stored.deny, Stored.invoke, Stored.on_messages, Stored.read_roles,
    Stored.seq, Stored.fail.
  run_monad. cbn [Stored.role_set Stored.messages].
  destruct (user req) as [|pk r]; simpl; [reflexivity|].
  destruct (permits r roles); [|reflexivity].
  destruct (h req a _) as [o s']. reflexivity.
Qed.

Lemma stored_dispatch_run (c : Stored.class)
    (req : HttpRequest) (a : call_args) (s : Stored.state) :
  Stored.dispatch c req a s =
  match role_attr (user req) with
  | None =>
      if Stored.raise_exception c then
        (Raise PermissionDenied, s, [EvIsAuthenticated; EvIsAuthenticated])
      else
        (Return (RedirectToLogin (path req)), s,
         [EvIsAuthenticated; EvIsAuthenticated; EvIsAuthenticated;
          EvRedirectToLogin])
  | Some r =>
      match Stored.role_set s with
      | [] =>
          ((Stored.base_dispatch c req a s).1,
           (Stored.base_dispatch c req a s).2,
           [EvIsAuthenticated; EvHandler req a])
      | _ :: _ =>
          if py_in r (Stored.role_set s) then
            ((Stored.base_dispatch c req a s).1,
             (Stored.base_dispatch c req a s).2,
             [EvIsAuthenticated; EvRole; EvHandler req a])
          else
            (Raise PermissionDenied,
             {| Stored.role_set := Stored.role_set s;
                Stored.messages :=
                  with_error req (denial_message (Stored.role_set s))
                    (Stored.messages s) |},
             [EvIsAuthenticated; EvRole; EvIsAuthenticated])
      end
  end.
Proof.
  destruct s as [roles st]. destruct c as [rex base].
  unfold Stored.dispatch, Stored.handle_no_permission, Stored.test_func,
    Stored.deny, Stored.invoke, Stored.on_messages, Stored.read_roles,
    Stored.seq, Stored.fail, Stored.unit_, AccessMixin.handle_no_permission.
  run_monad.
  cbn [Stored.role_set Stored.messages Stored.raise_exception
       Stored.base_dispatch].
  destruct (user req) as [|pk r]; simpl.
  - destruct rex; reflexivity.
  - destruct roles as [|r0 roles]; simpl.
    + destruct (base req a _) as [o s']. reflexivity.
    + destruct (if String.eqb r0 r then true else py_in r roles); simpl;
        [|reflexivity].
      destruct (base req a _) as [o s']. reflexivity.
Qed.

(** The stored model shows the first model what it computes. *)
Lemma stored_role_required_project (h : Stored.handler)
    (req : HttpRequest) (a : call_args) (s : Stored.state) :
  Stored.project (Stored.role_required h req a s) =
  role_required (Stored.role_set s) (Stored.forget h (Stored.role_set s))
    req a (Stored.messages s).
Proof.
  rewrite stored_role_required_run, role_required_run.
  destruct s as [roles st]. cbn [Stored.role_set Stored.messages].
  destruct (role_attr (user req)) as [r|]; [|reflexivity].
  destruct (permits r roles); [|reflexivity].
  unfold Stored.project, Stored.forget.
  destruct (h req a _) as [o s']. reflexivity.
Qed.

Lemma stored_dispatch_project (c : Stored.class)
    (req : HttpRequest) (a : call_args) (s : Stored.state) :
  Stored.project (Stored.dispatch c req a s) =
  RoleRequiredMixin.as_view (Stored.as_class c (Stored.role_set s))
    req a (Stored.messages s).
Proof.
  rewrite stored_dispatch_run, role_mixin_run.
  destruct s as [roles st]. destruct c as [rex base].
  cbn [Stored.role_set Stored.messages Stored.as_class
       Stored.raise_exception Stored.base_dispatch
       RoleRequiredMixin.allowed_roles RoleRequiredMixin.raise_exception
       RoleRequiredMixin.base_dispatch].
  destruct (role_attr (user req)) as [r|].
  - destruct roles as [|r0 roles].
    + unfold Stored.project, Stored.forget.
      destruct (base req a _) as [o s']. reflexivity.
    + destruct (py_in r (r0 :: roles)); [|reflexivity].
      unfold Stored.project, Stored.forget.
      destruct (base req a _) as [o s']. reflexivity.
  - destruct rex; reflexivity.
Qed.

(** What an evaluation does to the stored role set: nothing unless the
    handler is entered, and then what the handler did. *)
Lemma stored_role_required_frame (h : Stored.handler)
    (req : HttpRequest) (a : call_args) (s : Stored.state) :
  (handler_entered (Stored.role_required h req a s).2 = false ->
   Stored.role_set (Stored.role_required h req a s).1.2 = Stored.role_set s) /\
  (handler_entered (Stored.role_required h req a s).2 = true ->
   (Stored.role_required h req a s).1.2 = (h req a s).2).
Proof.
  rewrite stored_role_required_run.
  destruct (role_attr (user req)) as [r|]; [|done].
  destruct (permits r (Stored.role_set s)); done.
Qed.

Lemma stored_dispatch_frame (c : Stored.class)
    (req : HttpRequest) (a : call_args) (s : Stored.state) :
  (handler_entered (Stored.dispatch c req a s).2 = false ->
   Stored.role_set (Stored.dispatch c req a s).1.2 = Stored.role_set s) /\
  (handler_entered (Stored.dispatch c req a s).2 = true ->
   (Stored.dispatch c req a s).1.2 = (Stored.base_dispatch c req a s).2).
Proof.
  rewrite stored_dispatch_run.
  destruct (role_attr (user req)) as [r|].
  - destruct (Stored.role_set s) as [|r0 roles] eqn:Hroles; [done|].
    destruct (py_in r (r0 :: roles)); done.
  - destruct (Stored.raise_exception c); done.
Qed.

Lemma stored_role_set_kept (h : Stored.handler) (v : Stored.view)
    (req : HttpRequest) (a : call_args) (s : Stored.state) :
  Stored.keeps_role_set h ->
  (handler_entered (v req a s).2 = false ->
   Stored.role_set (v req a s).1.2 = Stored.role_set s) ->
  (handler_entered (v req a s).2 = true -> (v req a s).1.2 = (h req a s).2) ->
  Stored.role_set (v req a s).1.2 = Stored.role_set s.
Proof.
  intros Hkeep Hno Hyes.
  destruct (handler_entered (v req a s).2) eqn:Hent.
  - rewrite Hyes by done. apply Hkeep.
  - by apply Hno.
Qed.

(** C9: two requests that carry the same user get the same verdict from
    one guard, whatever their identities, arguments and message storages
    are, and also when the second is evaluated in the state the first
    evaluation left; the verdict is a function of the role set the guard
    was built with and of the requester, for the function guard and for
    the role mixin.  With the role set held in the state, where code
    could change it: an evaluation of either guard reads it and computes
    what the guard of the first model computes from the value read; it
    leaves the role set as it was unless the handler is entered, and then
    the state is the one the handler left; so with a handler that leaves
    the role set alone, two evaluations in sequence give both requests
    the verdict of the role set the guard was defined with, and that role
    set is still in place afterwards. *)
Theorem C9_same_user_same_verdict
    (req1 req2 : HttpRequest) (a1 a2 : call_args)
    (st1 st2 : gmap nat (list message))
    (Hsame : user req1 = user req2) :
  (forall roles h,
      verdict_of (role_required roles h req1 a1 st1) =
        verdict_of (role_required roles h req2 a2 st2) /\
      twice (role_required roles h) req1 req2 a1 a2 st1 =
        (role_decision roles (user req1), role_decision roles (user req1))) /\
  (forall c,
      verdict_of (RoleRequiredMixin.as_view c req1 a1 st1) =
        verdict_of (RoleRequiredMixin.as_view c req2 a2 st2) /\
      twice (RoleRequiredMixin.as_view c) req1 req2 a1 a2 st1 =
        (mixin_decision c (user req1), mixin_decision c (user req1))) /\
  (forall h s,
      Stored.project (Stored.role_required h req1 a1 s) =
        role_required (Stored.role_set s)
          (Stored.forget h (Stored.role_set s)) req1 a1 (Stored.messages s) /\
      (handler_entered (Stored.role_required h req1 a1 s).2 = false ->
       Stored.role_set (Stored.role_required h req1 a1 s).1.2 =
         Stored.role_set s) /\
      (handler_entered (Stored.role_required h req1 a1 s).2 = true ->
       (Stored.role_required h req1 a1 s).1.2 = (h req1 a1 s).2)) /\
  (forall c s,
      Stored.project (Stored.dispatch c req1 a1 s) =
        RoleRequiredMixin.as_view (Stored.as_class c (Stored.role_set s))
          req1 a1 (Stored.messages s) /\
      (handler_entered (Stored.dispatch c req1 a1 s).2 = false ->
       Stored.role_set (Stored.dispatch c req1 a1 s).1.2 =
         Stored.role_set s) /\
      (handler_entered (Stored.dispatch c req1 a1 s).2 = true ->
       (Stored.dispatch c req1 a1 s).1.2 =
         (Stored.base_dispatch c req1 a1 s).2)) /\
  (forall roles h,
      Stored.keeps_role_set h ->
      Stored.twice (Stored.role_required h) req1 req2 a1 a2
        (Stored.defined roles st1) =
      (role_decision roles (user req1), role_decision roles (user req1),
       roles)) /\
  (forall roles c,
      Stored.keeps_role_set (Stored.base_dispatch c) ->
      Stored.twice (Stored.dispatch c) req1 req2 a1 a2
        (Stored.defined roles st1) =
      (mixin_decision (Stored.as_class c roles) (user req1),
       mixin_decision (Stored.as_class c roles) (user req1),
       roles)).
Proof.
  split; [|split; [|split; [|split; [|split]]]].
  - intros roles h. unfold twice.
    rewrite !role_required_verdict, Hsame. done.
  - intros c. unfold twice. rewrite !role_mixin_verdict, Hsame. done.
  - intros h s. split; [apply stored_role_required_project|].
    apply stored_role_required_frame.
  - intros c s. split; [apply stored_dispatch_project|].
    apply stored_dispatch_frame.
  - intros roles h Hkeep. unfold Stored.twice.
    set (s := Stored.defined roles st1).
    assert (Hset1 : Stored.role_set (Stored.role_required h req1 a1 s).1.2
                    = roles).
    { apply (stored_role_set_kept h (Stored.role_required h) req1 a1 s Hkeep);
        apply stored_role_required_frame. }
    set (s1 := (Stored.role_required h req1 a1 s).1.2) in *.
    assert (Hset2 : Stored.role_set (Stored.role_required h req2 a2 s1).1.2
                    = roles).
    { rewrite <- Hset1.
      apply (stored_role_set_kept h (Stored.role_required h) req2 a2 s1 Hkeep);
        apply stored_role_required_frame. }
    rewrite !stored_role_required_project, !role_required_verdict.
    rewrite Hset1, Hset2, Hsame. reflexivity.
  - intros roles c Hkeep. unfold Stored.twice.
    set (s := Stored.defined roles st1).
    assert (Hset1 : Stored.role_set (Stored.dispatch c req1 a1 s).1.2 = roles).
    { apply (stored_role_set_kept (Stored.base_dispatch c) (Stored.dispatch c)
               req1 a1 s Hkeep); apply stored_dispatch_frame. }
    set (s1 := (Stored.dispatch c req1 a1 s).1.2) in *.
    assert (Hset2 : Stored.role_set (Stored.dispatch c req2 a2 s1).1.2 = roles).
    { rewrite <- Hset1.
      apply (stored_role_set_kept (Stored.base_dispatch c) (Stored.dispatch c)
               req2 a2 s1 Hkeep); apply stored_dispatch_frame. }
    rewrite !stored_dispatch_project, !role_mixin_verdict.
    rewrite Hset1, Hset2, Hsame. reflexivity.
Qed.

Lemma C9_same_user_same_verdict_witness :
  twice (role_required ["admin"; "researcher"] Sample.ok_handler)
    {| req_id := 1; user := Sample.member; path := "/reefs/new/" |}
    {| req_id := 2; user := Sample.member; path := "/reefs/new/" |}
    Sample.pk3 Sample.pk3 ∅ = (Deny, Deny) /\
  Stored.twice (Stored.role_required StoredSample.quiet_handler)
    {| req_id := 1; user := Sample.admin; path := "/reefs/new/" |}
    {| req_id := 2; user := Sample.admin; path := "/reefs/new/" |}
    Sample.pk3 Sample.pk3 (Stored.defined ["admin"; "researcher"] ∅) =
    (Permit, Permit, ["admin"; "researcher"]).
Proof.
  split.
  - destruct (C9_same_user_same_verdict
                {| req_id := 1; user := Sample.member; path := "/reefs/new/" |}
                {| req_id := 2; user := Sample.member; path := "/reefs/new/" |}
                Sample.pk3 Sample.pk3 ∅ ∅ eq_refl) as [Hfun _].
    destruct (Hfun ["admin"; "researcher"] Sample.ok_handler) as [_ Htwice].
    rewrite Htwice. reflexivity.
  - destruct (C9_same_user_same_verdict
                {| req_id := 1; user := Sample.admin; path := "/reefs/new/" |}
                {| req_id := 2; user := Sample.admin; path := "/reefs/new/" |}
                Sample.pk3 Sample.pk3 ∅ ∅ eq_refl)
      as (_ & _ & _ & _ & Hstored & _).
    rewrite (Hstored ["admin"; "researcher"] StoredSample.quiet_handler);
      [reflexivity|].
    intros request a s. reflexivity.
Defined.

(** The role set is part of the state the handler works on: a handler
    that rebinds it changes what the guard decides next, so that the role
    set stays fixed is a fact about the code that runs, not about the
    way the state is written down. *)
Example stored_role_set_can_be_rebound :
  Stored.twice (Stored.role_required StoredSample.rebinding_handler)
    (Sample.request_of Sample.admin) (Sample.request_of Sample.admin)
    Sample.pk3 Sample.pk3 (Stored.defined ["admin"] ∅) =
    (Permit, Deny, ["member"]).
Proof. reflexivity. Qed.

(** C10: the ownership guard starts every evaluation with [get_object];
    when that raises, nothing else happens; when it returns the object,
    the requester's role is read next, and [is_authenticated], the
    login check of the inherited [dispatch], is read after both and only
    when the role-or-owner test has passed, that is exactly when the
    handler is entered.  So an anonymous request ends with the
    [AttributeError] of the role access, and a denied one with
    [PermissionDenied], both after the object lookup and without any
    login check. *)
Theorem C10_lookup_and_role_before_login_check
    (c : StaffOrOwnerMixin.class) (req : HttpRequest) (a : call_args)
    (st : gmap nat (list message)) :
  (exists t,
      journal_of (StaffOrOwnerMixin.as_view c req a st) = EvGetObject :: t) /\
  (forall e st1,
      StaffOrOwnerMixin.get_object c req a st = (Raise e, st1) ->
      StaffOrOwnerMixin.as_view c req a st = (Raise e, st1, [EvGetObject])) /\
  (forall obj st1,
      StaffOrOwnerMixin.get_object c req a st = (Return obj, st1) ->
      (exists t,
          journal_of (StaffOrOwnerMixin.as_view c req a st) =
            EvGetObject :: EvRole :: t /\
          (EvIsAuthenticated ∈ t <->
           handler_entered (journal_of (StaffOrOwnerMixin.as_view c req a st))
             = true)) /\
      (user req = AnonymousUser ->
       StaffOrOwnerMixin.as_view c req a st =
         (Raise (AttributeError "role"), st1, [EvGetObject; EvRole])) /\
      (outcome_of (StaffOrOwnerMixin.as_view c req a st) = Raise PermissionDenied ->
       handler_entered (journal_of (StaffOrOwnerMixin.as_view c req a st))
         = false ->
       journal_of (StaffOrOwnerMixin.as_view c req a st) =
         [EvGetObject; EvRole])).
Proof.
  rewrite staff_owner_run.
  destruct (StaffOrOwnerMixin.get_object c req a st) as [[obj|e] st1].
  - split; [|split].
    + destruct (role_attr (user req)) as [r|]; [|by eexists].
      destruct (staff_or_owner r (owner_of c obj) (user req)); by eexists.
    + intros e st' [=].
    + intros obj' st' [= <- <-].
      destruct (user req) as [|pk r] eqn:Hu; cbn [role_attr].
      * split; [|split; [done|done]].
        exists []. split; [reflexivity|].
        split; [intros H; inversion H | discriminate].
      * destruct (staff_or_owner r (owner_of c obj) (User pk r)).
        -- split; [|split; [discriminate|discriminate]].
           eexists. split; [reflexivity|].
           split; [reflexivity | intros _; left].
        -- split; [|split; [discriminate|done]].
           exists []. split; [reflexivity|].
           split; [intros H; inversion H | discriminate].
  - split; [by eexists|]. split.
    + intros e' st' [= <- <-]. reflexivity.
    + intros obj st' [=].
Qed.

Lemma C10_lookup_and_role_before_login_check_witness :
  journal_of
    (StaffOrOwnerMixin.as_view Sample.edit_event
       (Sample.request_of Sample.other_member) Sample.pk3 ∅) =
    [EvGetObject; EvRole].
Proof.
  destruct (C10_lookup_and_role_before_login_check Sample.edit_event
              (Sample.request_of Sample.other_member) Sample.pk3 ∅)
    as (_ & _ & Hfound).
  destruct (Hfound Sample.event_of_member ∅ eq_refl) as (_ & _ & Hdenied).
  apply Hdenied; reflexivity.
Defined.

(** ** Further properties of the guards *)

(** X1: a view built on the role mixin with a non-empty [allowed_roles]
    denies an authenticated requester whose role is not listed: the
    evaluation ends with [PermissionDenied], the denial message is
    appended to the messages of the request, and the handler is not
    entered; neither [raise_exception] nor the handler has any influence. *)
Theorem X1_role_mixin_denies_unlisted_role
    (c : RoleRequiredMixin.class) (req : HttpRequest) (a : call_args)
    (st : gmap nat (list message)) (pk : Z) (r : string)
    (Huser : user req = User pk r)
    (Hroles : RoleRequiredMixin.allowed_roles c <> [])
    (Hnot : r ∉ RoleRequiredMixin.allowed_roles c) :
  RoleRequiredMixin.as_view c req a st =
    (Raise PermissionDenied,
     with_error req (denial_message (RoleRequiredMixin.allowed_roles c)) st,
     [EvIsAuthenticated; EvRole; EvIsAuthenticated]) /\
  (forall req' a',
      EvHandler req' a' ∉ journal_of (RoleRequiredMixin.as_view c req a st)).
Proof.
  apply py_in_false in Hnot.
  assert (Hrun : RoleRequiredMixin.as_view c req a st =
    (Raise PermissionDenied,
     with_error req (denial_message (RoleRequiredMixin.allowed_roles c)) st,
     [EvIsAuthenticated; EvRole; EvIsAuthenticated])).
  { rewrite role_mixin_run, Huser. cbn [role_attr].
    destruct (RoleRequiredMixin.allowed_roles c) as [|r0 roles]; [done|].
    rewrite Hnot. reflexivity. }
  split; [exact Hrun|].
  intros req' a' Hin. rewrite Hrun in Hin. cbn in Hin.
  repeat (apply elem_of_cons in Hin as [Hin|Hin]; [discriminate|]).
  inversion Hin.
Qed.

Lemma X1_role_mixin_denies_unlisted_role_witness :
  RoleRequiredMixin.as_view (ResearcherOrAdminMixin Sample.ok_handler)
      (Sample.request_of Sample.member) Sample.pk3 ∅ =
    (Raise PermissionDenied,
     {[ 1 := [(ERROR,
               "Access denied. This feature requires admin or researcher role.")] ]},
     [EvIsAuthenticated; EvRole; EvIsAuthenticated]).
Proof.
  destruct (X1_role_mixin_denies_unlisted_role
              (ResearcherOrAdminMixin Sample.ok_handler)
              (Sample.request_of Sample.member) Sample.pk3 ∅ 7%Z "member"
              eq_refl) as [Hrun _].
  - discriminate.
  - intros H. apply py_in_elem_of in H. discriminate.
  - rewrite Hrun. reflexivity.
Defined.

(** X2: for an unauthenticated request a view built on the role mixin
    never reads the role, never enters the handler and attaches no
    message; it answers with the login redirect, or with
    [PermissionDenied] when the view class sets [raise_exception]. *)
Theorem X2_role_mixin_anonymous_is_silent
    (c : RoleRequiredMixin.class) (req : HttpRequest) (a : call_args)
    (st : gmap nat (list message))
    (Hanon : user req = AnonymousUser) :
  storage_of (RoleRequiredMixin.as_view c req a st) = st /\
  (EvRole ∉ journal_of (RoleRequiredMixin.as_view c req a st)) /\
  handler_entered (journal_of (RoleRequiredMixin.as_view c req a st)) = false /\
  outcome_of (RoleRequiredMixin.as_view c req a st) =
    (if RoleRequiredMixin.raise_exception c then Raise PermissionDenied
     else Return (RedirectToLogin (path req))).
Proof.
  rewrite role_mixin_run, Hanon. cbn [role_attr].
  destruct (RoleRequiredMixin.raise_exception c); cbn.
  - split; [done|]. split; [|done].
    intros Hin.
    repeat (apply elem_of_cons in Hin as [Hin|Hin]; [discriminate|]).
    inversion Hin.
  - split; [done|]. split; [|done].
    intros Hin.
    repeat (apply elem_of_cons in Hin as [Hin|Hin]; [discriminate|]).
    inversion Hin.
Qed.

Lemma X2_role_mixin_anonymous_is_silent_witness :
  outcome_of
    (RoleRequiredMixin.as_view
       {| RoleRequiredMixin.allowed_roles := ["admin"];
          RoleRequiredMixin.raise_exception := true;
          RoleRequiredMixin.base_dispatch := Sample.ok_handler |}
       (Sample.request_of AnonymousUser) Sample.pk3 ∅) =
    Raise PermissionDenied.
Proof.
  destruct (X2_role_mixin_anonymous_is_silent
              {| RoleRequiredMixin.allowed_roles := ["admin"];
                 RoleRequiredMixin.raise_exception := true;
                 RoleRequiredMixin.base_dispatch := Sample.ok_handler |}
              (Sample.request_of AnonymousUser) Sample.pk3 ∅ eq_refl)
    as (_ & _ & _ & Hout).
  exact Hout.
Defined.

(** X3: widening the role set of the function guard never takes access
    away: a request that reaches the handler under [roles] is evaluated
    in exactly the same way under any [roles'] that contains [roles]. *)
Theorem X3_role_required_monotone
    (roles roles' : list string) (h : handler) (req : HttpRequest)
    (a : call_args) (st : gmap nat (list message))
    (Hsub : forall x, x ∈ roles -> x ∈ roles')
    (Hpermit :
       handler_entered (journal_of (role_required roles h req a st)) = true) :
  role_required roles' h req a st = role_required roles h req a st.
Proof.
  rewrite !role_required_run in *.
  destruct (role_attr (user req)) as [r|]; [|reflexivity].
  unfold permits in *.
  destruct (py_in r roles) eqn:Hin; [|discriminate].
  apply py_in_elem_of, Hsub, py_in_elem_of in Hin. rewrite Hin. reflexivity.
Qed.

Lemma X3_role_required_monotone_witness :
  researcher_or_admin_required Sample.ok_handler
      (Sample.request_of Sample.admin) Sample.pk3 ∅ =
    admin_required Sample.ok_handler
      (Sample.request_of Sample.admin) Sample.pk3 ∅.
Proof.
  apply (X3_role_required_monotone ["admin"] ["admin"; "researcher"]).
  - intros x Hx. apply elem_of_cons. left.
    apply elem_of_cons in Hx as [Hx|Hx]; [exact Hx | inversion Hx].
  - reflexivity.
Defined.

(** X4: the decision of the function guard depends on the role set as a
    set: two role tuples with the same members, in any order and with any
    repetitions, give every request the same outcome and the same
    journal, and the same storage whenever the handler is entered; only
    the text of the denial message can differ. *)
Theorem X4_role_required_order_irrelevant
    (roles roles' : list string) (h : handler) (req : HttpRequest)
    (a : call_args) (st : gmap nat (list message))
    (Hsame : forall x, x ∈ roles <-> x ∈ roles') :
  outcome_of (role_required roles' h req a st) =
    outcome_of (role_required roles h req a st) /\
  journal_of (role_required roles' h req a st) =
    journal_of (role_required roles h req a st) /\
  (handler_entered (journal_of (role_required roles h req a st)) = true ->
   role_required roles' h req a st = role_required roles h req a st) /\
  (denial_message roles' = denial_message roles ->
   role_required roles' h req a st = role_required roles h req a st).
Proof.
  rewrite !role_required_run.
  destruct (role_attr (user req)) as [r|]; [|done].
  unfold permits.
  assert (Heq : py_in r roles' = py_in r roles).
  { destruct (py_in r roles) eqn:Hin.
    - by apply py_in_elem_of, Hsame, py_in_elem_of.
    - apply py_in_false. apply py_in_false in Hin. by rewrite <- Hsame. }
  rewrite Heq. destruct (py_in r roles); [done|].
  split; [done|]. split; [done|]. split; [discriminate|].
  by intros ->.
Qed.

Lemma X4_role_required_order_irrelevant_witness :
  outcome_of
    (role_required ["researcher"; "admin"; "admin"] Sample.ok_handler
       (Sample.request_of Sample.member) Sample.pk3 ∅) =
  outcome_of
    (researcher_or_admin_required Sample.ok_handler
       (Sample.request_of Sample.member) Sample.pk3 ∅).
Proof.
  apply (X4_role_required_order_irrelevant ["admin"; "researcher"]
           ["researcher"; "admin"; "admin"]).
  intros x. rewrite <- !py_in_elem_of. cbn [py_in].
  destruct (String.eqb "admin" x), (String.eqb "researcher" x); done.
Defined.

(** X5: the denial message names every role of the role set: each
    allowed role occurs in the message as a substring, between the fixed
    opening and closing words. *)
Theorem X5_denial_message_names_every_role (roles : list string) (r : string)
    (Hin : r ∈ roles) :
  exists pre post,
    denial_message roles =
    ("Access denied. This feature requires " +:+ pre) +:+ r +:+ post +:+ " role.".
Proof.
  destruct (join_contains " or " r roles Hin) as (pre & post & Heq).
  exists pre, post. unfold denial_message. rewrite Heq.
  by rewrite !str_app_assoc.
Qed.

Lemma X5_denial_message_names_every_role_witness :
  exists pre post,
    denial_message ["admin"; "researcher"] =
    ("Access denied. This feature requires " +:+ pre) +:+ "researcher"
    +:+ post +:+ " role.".
Proof.
  apply (X5_denial_message_names_every_role ["admin"; "researcher"]).
  apply elem_of_cons. right. apply elem_of_cons. by left.
Defined.

Lemma get_messages_with_error (req : HttpRequest) (text : string)
    (st : gmap nat (list message)) :
  get_messages req (with_error req text st) =
  get_messages req st ++ [(ERROR, text)].
Proof.
  unfold with_error, get_messages. by rewrite lookup_total_insert_eq.
Qed.

Lemma get_messages_with_error_ne (req req' : HttpRequest) (text : string)
    (st : gmap nat (list message)) :
  req_id req' <> req_id req ->
  get_messages req' (with_error req text st) = get_messages req' st.
Proof.
  intros Hne. unfold with_error, get_messages.
  by rewrite lookup_total_insert_ne.
Qed.

(** X6: whenever one of the three guards denies an authenticated
    requester, the only change to the message storages is one error
    message appended after the earlier messages of that request; the
    messages of every other live request are left as they were. *)
Theorem X6_denial_adds_exactly_one_message
    (req : HttpRequest) (a : call_args) (st : gmap nat (list message))
    (pk : Z) (r : string) (Huser : user req = User pk r) :
  (forall roles h,
      r ∉ roles ->
      one_error_added req (denial_message roles) st
        (storage_of (role_required roles h req a st))) /\
  (forall c,
      RoleRequiredMixin.allowed_roles c <> [] ->
      r ∉ RoleRequiredMixin.allowed_roles c ->
      one_error_added req (denial_message (RoleRequiredMixin.allowed_roles c)) st
        (storage_of (RoleRequiredMixin.as_view c req a st))) /\
  (forall c obj st1,
      StaffOrOwnerMixin.get_object c req a st = (Return obj, st1) ->
      staff_or_owner r (owner_of c obj) (user req) = false ->
      one_error_added req StaffOrOwnerMixin.permission_message st1
        (storage_of (StaffOrOwnerMixin.as_view c req a st))).
Proof.
  assert (Hadd : forall text s, one_error_added req text s (with_error req text s)).
  { intros text s. split; [apply get_messages_with_error|].
    intros req' Hne. by apply get_messages_with_error_ne. }
  split; [|split].
  - intros roles h Hnot. apply py_in_false in Hnot.
    rewrite role_required_run, Huser. cbn [role_attr]. unfold permits.
    rewrite Hnot. apply Hadd.
  - intros c Hroles Hnot. apply py_in_false in Hnot.
    rewrite role_mixin_run, Huser. cbn [role_attr].
    destruct (RoleRequiredMixin.allowed_roles c) as [|r0 roles]; [done|].
    rewrite Hnot. apply Hadd.
  - intros c obj st1 Hobj Hno.
    rewrite staff_owner_run, Hobj. rewrite Huser in *. cbn [role_attr].
    rewrite Hno. apply Hadd.
Qed.

Lemma X6_denial_adds_exactly_one_message_witness :
  one_error_added (Sample.request_of Sample.other_member)
    StaffOrOwnerMixin.permission_message ∅
    (storage_of
       (StaffOrOwnerMixin.as_view Sample.edit_event
          (Sample.request_of Sample.other_member) Sample.pk3 ∅)).
Proof.
  destruct (X6_denial_adds_exactly_one_message
              (Sample.request_of Sample.other_member) Sample.pk3 ∅
              8%Z "member" eq_refl) as (_ & _ & Howner).
  apply (Howner Sample.edit_event Sample.event_of_member); reflexivity.
Defined.

(** X7: the ownership test of line 131 compares the value of the owner
    field with the user object, so an owner field that holds anything but
    a user (nothing, a name, or the owner's primary key as an integer)
    matches no requester: a requester without a privileged role is
    denied, also when that integer is the requester's own key. *)
Theorem X7_owner_field_must_hold_a_user
    (c : StaffOrOwnerMixin.class) (obj : pyobject) (v : value)
    (req : HttpRequest) (a : call_args) (st st1 : gmap nat (list message))
    (pk : Z) (r : string)
    (Hobj : StaffOrOwnerMixin.get_object c req a st = (Return obj, st1))
    (Hfield : obj !! StaffOrOwnerMixin.owner_field c = Some v)
    (Hnouser : forall u, v <> VUser u)
    (Huser : user req = User pk r)
    (Hrole : r ∉ ["admin"; "researcher"]) :
  StaffOrOwnerMixin.as_view c req a st =
    (Raise PermissionDenied,
     with_error req StaffOrOwnerMixin.permission_message st1,
     [EvGetObject; EvRole]).
Proof.
  apply py_in_false in Hrole.
  rewrite staff_owner_run, Hobj, Huser. cbn [role_attr].
  unfold staff_or_owner, owner_of. rewrite Hfield, Hrole. cbn [default orb].
  destruct v as [| | |u]; try reflexivity.
  by destruct (Hnouser u).
Qed.

Lemma X7_owner_field_must_hold_a_user_witness :
  StaffOrOwnerMixin.as_view
      {| StaffOrOwnerMixin.owner_field := "reported_by_id";
         StaffOrOwnerMixin.raise_exception := false;
         StaffOrOwnerMixin.get_object :=
           Sample.found {[ "reported_by_id" := VInt 7 ]};
         StaffOrOwnerMixin.base_dispatch := Sample.ok_handler |}
      (Sample.request_of Sample.member) Sample.pk3 ∅ =
    (Raise PermissionDenied,
     with_error (Sample.request_of Sample.member)
       StaffOrOwnerMixin.permission_message ∅,
     [EvGetObject; EvRole]).
Proof.
  apply (X7_owner_field_must_hold_a_user _ {[ "reported_by_id" := VInt 7 ]}
           (VInt 7) _ _ _ _ 7%Z "member").
  - reflexivity.
  - reflexivity.
  - discriminate.
  - reflexivity.
  - intros H. apply py_in_elem_of in H. discriminate.
Defined.

(** X8: the ownership guard never redirects to the login page, for any
    view class, request and storage, and [raise_exception] has no
    influence on what it does: the inherited login check is only reached
    by requesters that are already authenticated. *)
Theorem X8_ownership_guard_never_redirects
    (c : StaffOrOwnerMixin.class) (req : HttpRequest) (a : call_args)
    (st : gmap nat (list message)) :
  (EvRedirectToLogin ∉ journal_of (StaffOrOwnerMixin.as_view c req a st)) /\
  (forall b,
      StaffOrOwnerMixin.as_view
        {| StaffOrOwnerMixin.owner_field := StaffOrOwnerMixin.owner_field c;
           StaffOrOwnerMixin.raise_exception := b;
           StaffOrOwnerMixin.get_object := StaffOrOwnerMixin.get_object c;
           StaffOrOwnerMixin.base_dispatch := StaffOrOwnerMixin.base_dispatch c |}
        req a st =
      StaffOrOwnerMixin.as_view c req a st).
Proof.
  split.
  - rewrite staff_owner_run.
    destruct (StaffOrOwnerMixin.get_object c req a st) as [[obj|e] st1].
    + destruct (role_attr (user req)) as [r|].
      * destruct (staff_or_owner r (owner_of c obj) (user req)); cbn;
          intros Hin;
          repeat (apply elem_of_cons in Hin as [Hin|Hin]; [discriminate|]);
          inversion Hin.
      * cbn. intros Hin.
        repeat (apply elem_of_cons in Hin as [Hin|Hin]; [discriminate|]).
        inversion Hin.
    + cbn. intros Hin.
      repeat (apply elem_of_cons in Hin as [Hin|Hin]; [discriminate|]).
      inversion Hin.
  - intros b. rewrite !staff_owner_run. reflexivity.
Qed.

(** X9: a view built on the role mixin hands a permitted request to the
    generic view untouched: for an authenticated requester whose role is
    listed, or when [allowed_roles] is empty, the outcome and the storage
    are those of the handler applied to the same request, arguments and
    storage, and the handler is the only collaborator called. *)
Theorem X9_role_mixin_permitted_passes_through
    (c : RoleRequiredMixin.class) (req : HttpRequest) (a : call_args)
    (st : gmap nat (list message)) (pk : Z) (r : string)
    (Huser : user req = User pk r)
    (Hok : RoleRequiredMixin.allowed_roles c = [] \/
           r ∈ RoleRequiredMixin.allowed_roles c) :
  behaviour (RoleRequiredMixin.as_view c req a st) =
    ((RoleRequiredMixin.base_dispatch c req a st).1,
     (RoleRequiredMixin.base_dispatch c req a st).2,
     [EvHandler req a]).
Proof.
  rewrite role_mixin_run, Huser. cbn [role_attr].
  destruct (RoleRequiredMixin.allowed_roles c) as [|r0 roles] eqn:Hroles;
    [reflexivity|].
  destruct Hok as [|Hin]; [done|].
  apply py_in_elem_of in Hin. rewrite Hin. reflexivity.
Qed.

Lemma X9_role_mixin_permitted_passes_through_witness :
  behaviour
    (RoleRequiredMixin.as_view (ResearcherOrAdminMixin Sample.ok_handler)
       (Sample.request_of Sample.researcher) Sample.pk3 ∅) =
    (Return (Response 200 "ok"), ∅,
     [EvHandler (Sample.request_of Sample.researcher) Sample.pk3]).
Proof.
  apply (X9_role_mixin_permitted_passes_through
           (ResearcherOrAdminMixin Sample.ok_handler)
           (Sample.request_of Sample.researcher) Sample.pk3 ∅ 2%Z "researcher"
           eq_refl).
  right. apply py_in_elem_of. reflexivity.
Defined.

(** ** The home page view *)

(** X10: the home page shows at most three articles, every one of them
    published and featured and taken from the table in table order; they
    are the first qualifying rows, so none is left out when at most three
    qualify. *)
Theorem X10_featured_articles_are_the_first_three
    (db : database) (super_context : gmap string context_value) :
  exists rows,
    HomeView.get_context_data db super_context !! "featured_articles" =
      Some (CArticles rows) /\
    length rows <= 3 /\
    (forall a, a ∈ rows ->
               published a = true /\ featured a = true /\ a ∈ articles db) /\
    rows `sublist_of` articles db /\
    rows `prefix_of` filter HomeView.featured_filter (articles db) /\
    (length (filter HomeView.featured_filter (articles db)) <= 3 ->
     forall a, a ∈ articles db -> published a = true -> featured a = true ->
               a ∈ rows).
Proof.
  exists (take 3 (filter HomeView.featured_filter (articles db))).
  split; [|split; [|split; [|split; [|split]]]].
  - unfold HomeView.get_context_data.
    rewrite !lookup_insert_ne by done. apply lookup_insert_eq.
  - rewrite length_take. lia.
  - intros a Ha.
    assert (Hin : a ∈ filter HomeView.featured_filter (articles db)).
    { eapply sublist_subseteq; [apply sublist_take | exact Ha]. }
    apply list_elem_of_filter in Hin as [[Hp Hf] Hin]. done.
  - etrans; [apply sublist_take | apply sublist_filter].
  - apply prefix_take.
  - intros Hfew a Hin Hp Hf. rewrite take_ge by exact Hfew.
    apply list_elem_of_filter. done.
Qed.

(** X11: the five recent events are the first rows of the event table in
    table order, all of them when the table has at most five, while
    [event_count] and [reef_count] count the whole tables: the count is
    never smaller than the number of events shown. *)
Theorem X11_recent_events_and_counts
    (db : database) (super_context : gmap string context_value) :
  exists rows n,
    HomeView.get_context_data db super_context !! "recent_events" =
      Some (CEvents rows) /\
    HomeView.get_context_data db super_context !! "event_count" =
      Some (CCount n) /\
    HomeView.get_context_data db super_context !! "reef_count" =
      Some (CCount (length (reefs db))) /\
    rows `prefix_of` events db /\
    length rows = min 5 n /\
    n = length (events db) /\
    (n <= 5 -> rows = events db).
Proof.
  exists (take 5 (events db)), (length (events db)).
  unfold HomeView.get_context_data.
  split; [|split; [|split; [|split; [|split; [|split]]]]].
  - rewrite !lookup_insert_ne by done. apply lookup_insert_eq.
  - apply lookup_insert_eq.
  - rewrite !lookup_insert_ne by done. apply lookup_insert_eq.
  - apply prefix_take.
  - apply length_take.
  - reflexivity.
  - intros Hfew. by apply take_ge.
Qed.

(** X12: [get_context_data] adds its four entries to the context of the
    parent class and touches nothing else: every other key keeps its
    value, and the four entries are fixed by the database alone,
    replacing whatever the parent context held under these names. *)
Theorem X12_context_keeps_other_keys
    (db : database) (super_context : gmap string context_value) :
  (forall k,
      k ∉ ["featured_articles"; "recent_events"; "reef_count"; "event_count"] ->
      HomeView.get_context_data db super_context !! k = super_context !! k) /\
  (forall k,
      k ∈ ["featured_articles"; "recent_events"; "reef_count"; "event_count"] ->
      is_Some (HomeView.get_context_data db super_context !! k) /\
      HomeView.get_context_data db super_context !! k =
        HomeView.get_context_data db ∅ !! k) /\
  dom (HomeView.get_context_data db super_context) =
    dom super_context ∪
    {[ "featured_articles"; "recent_events"; "reef_count"; "event_count" ]}.
Proof.
  unfold HomeView.get_context_data. split; [|split].
  - intros k Hk.
    rewrite !lookup_insert_ne; [done|..]; intros <-; apply Hk;
      repeat first [by left | right].
  - intros k Hk.
    repeat (apply elem_of_cons in Hk as [->|Hk]);
      [| | | | inversion Hk];
      (split; [eexists|]);
      rewrite ?lookup_insert_eq; rewrite ?lookup_insert_ne by done;
      rewrite ?lookup_insert_eq; rewrite ?lookup_insert_ne by done;
      rewrite ?lookup_insert_eq; rewrite ?lookup_insert_ne by done;
      rewrite ?lookup_insert_eq; reflexivity.
  - rewrite !dom_insert_L. apply set_eq. intros k.
    rewrite !elem_of_union, !elem_of_singleton. tauto.
Qed.

(** ** The URL configuration *)

Lemma app_cons (c : ascii) (s r : string) :
  String c s +:+ r = String c (s +:+ r).
Proof. reflexivity. Qed.

Lemma strip_prefix_app (p r : string) : urls.strip_prefix p (p +:+ r) = Some r.
Proof.
  induction p as [|c p IH]; [reflexivity|].
  rewrite app_cons. cbn [urls.strip_prefix]. by rewrite Ascii.eqb_refl.
Qed.

Lemma strip_prefix_Some (p s r : string) :
  urls.strip_prefix p s = Some r -> s = p +:+ r.
Proof.
  revert s. induction p as [|c p IH]; intros s H.
  - injection H as ->. reflexivity.
  - destruct s as [|b s]; [discriminate|]. cbn [urls.strip_prefix] in H.
    destruct (Ascii.eqb_spec c b) as [->|]; [|discriminate].
    rewrite app_cons. f_equal. by apply IH.
Qed.

Lemma span_digits_app (d r : string) :
  urls.all_digits d = true -> no_digit_ahead r ->
  urls.span_digits (d +:+ r) = (d, r).
Proof.
  intros Hd Hr. induction d as [|c d IH].
  - change ("" +:+ r) with r. destruct r as [|c r]; [reflexivity|].
    cbn [urls.span_digits]. cbn in Hr. by rewrite Hr.
  - cbn [urls.all_digits] in Hd. apply andb_prop in Hd as [Hc Hd].
    rewrite app_cons. cbn [urls.span_digits]. by rewrite Hc, IH.
Qed.

Lemma span_digits_spec (s d r : string) :
  urls.span_digits s = (d, r) ->
  s = d +:+ r /\ urls.all_digits d = true /\ no_digit_ahead r.
Proof.
  revert d r. induction s as [|c s IH]; intros d r H.
  - injection H as <- <-. done.
  - cbn [urls.span_digits] in H. destruct (urls.is_digit c) eqn:Hc.
    + destruct (urls.span_digits s) as [d' r'].
      injection H as <- <-.
      destruct (IH d' r' eq_refl) as (-> & Hd & Hr).
      rewrite app_cons. cbn [urls.all_digits]. by rewrite Hc, Hd.
    + injection H as <- <-. done.
Qed.

Lemma all_digits_string_of_uint (u : Decimal.uint) :
  urls.all_digits (NilEmpty.string_of_uint u) = true.
Proof. induction u; cbn; done. Qed.

(** A run of digits reads as a number. *)
Lemma all_digits_uint (d : string) :
  urls.all_digits d = true -> exists u, NilEmpty.uint_of_string d = Some u.
Proof.
  induction d as [|c d IH]; [by eexists|].
  cbn [urls.all_digits]. intros [Hc Hd]%andb_prop.
  destruct (IH Hd) as [u Hu]. cbn [NilEmpty.uint_of_string]. rewrite Hu.
  destruct c as [[] [] [] [] [] [] [] []]; try discriminate Hc;
    cbn; by eexists.
Qed.

Lemma eqb_empty (s : string) : String.eqb s "" = true <-> s = "".
Proof. destruct s; cbn; split; done. Qed.

Lemma app_nil_l (s : string) : "" +:+ s = s.
Proof. reflexivity. Qed.

(** A run of digits before ["/"] is determined by the whole text. *)
Lemma digits_slash_inj (d d' r r' : string) :
  urls.all_digits d = true -> urls.all_digits d' = true ->
  d +:+ "/" +:+ r = d' +:+ "/" +:+ r' -> d = d' /\ r = r'.
Proof.
  revert d'. induction d as [|c d IH]; intros [|c' d'] Hd Hd' Heq.
  - rewrite !app_nil_l in Heq. by apply (inj (String.append "/")) in Heq.
  - rewrite app_nil_l, !app_cons, app_nil_l in Heq.
    injection Heq as <- _. discriminate Hd'.
  - rewrite app_nil_l, !app_cons, app_nil_l in Heq.
    injection Heq as -> _. discriminate Hd.
  - rewrite !(app_cons _ _ ("/" +:+ _)) in Heq. injection Heq as -> Heq.
    cbn [urls.all_digits] in Hd, Hd'.
    apply andb_prop in Hd as [_ Hd]. apply andb_prop in Hd' as [_ Hd'].
    destruct (IH d' Hd Hd' Heq) as [-> ->]. done.
Qed.

(** What the regular expression of each route of the table matches. *)
Lemma regex_home (s : string) (g : list (string * string)) :
  urls.regex_match [] s = Some g <-> s = "" /\ g = [].
Proof.
  cbn [urls.regex_match]. destruct s; cbn.
  - split; [by intros [= <-] | by intros [_ ->]].
  - split; [done | by intros [? _]].
Qed.

Lemma regex_list (s : string) (g : list (string * string)) :
  urls.regex_match [Lit "events/"] s = Some g <-> s = "events/" /\ g = [].
Proof.
  cbn [urls.regex_match]. split.
  - destruct (urls.strip_prefix "events/" s) as [r|] eqn:Hr; [|done].
    apply strip_prefix_Some in Hr as ->.
    destruct r; cbn; [|done]. by intros [= <-].
  - intros [-> ->]. reflexivity.
Qed.

Lemma regex_detail (s : string) (g : list (string * string)) :
  urls.regex_match [Lit "events/"; IntConverter "pk"; Lit "/"] s = Some g <->
  exists d, d <> "" /\ urls.all_digits d = true /\
            s = "events/" +:+ d +:+ "/" /\ g = [("pk", d)].
Proof.
  cbn [urls.regex_match]. split.
  - destruct (urls.strip_prefix "events/" s) as [r|] eqn:Hr; [|done].
    apply strip_prefix_Some in Hr as ->.
    destruct (urls.span_digits r) as [d r'] eqn:Hspan.
    apply span_digits_spec in Hspan as (-> & Hd & _).
    destruct (String.eqb d "") eqn:Hempty; [done|].
    destruct (urls.strip_prefix "/" r') as [r''|] eqn:Hr'; [|done].
    apply strip_prefix_Some in Hr' as ->.
    destruct r''; cbn; [|done]. intros [= <-].
    exists d. split; [|done].
    intros ->. discriminate.
  - intros (d & Hne & Hd & -> & ->).
    rewrite strip_prefix_app, span_digits_app by done.
    destruct (String.eqb d "") eqn:Hempty.
    { apply eqb_empty in Hempty. done. }
    reflexivity.
Qed.

Lemma to_python_Some (d : string) (n : N) :
  urls.to_python d = Some n <->
  String.length d <= 4300 /\
  exists u, NilEmpty.uint_of_string d = Some u /\ n = N.of_uint u.
Proof.
  unfold urls.to_python, urls.max_str_digits.
  destruct (Nat.leb_spec (String.length d) 4300) as [Hle|Hgt].
  - destruct (NilEmpty.uint_of_string d) as [u|].
    + split; [intros [= <-]; eauto | by intros [_ (u' & [= <-] & ->)]].
    + split; [done | by intros [_ (u' & ? & _)]].
  - split; [done | intros [Hle _]; lia].
Qed.

(** What each route of the table matches, converters included. *)
Lemma match_home (s : string) (kw : gmap string N) :
  urls.match_route [] s = Some kw <-> s = "" /\ kw = ∅.
Proof.
  unfold urls.match_route. split.
  - destruct (urls.regex_match [] s) as [g|] eqn:Hg; [|done].
    apply regex_home in Hg as [-> ->]. by intros [= <-].
  - intros [-> ->]. reflexivity.
Qed.

Lemma match_list (s : string) (kw : gmap string N) :
  urls.match_route [Lit "events/"] s = Some kw <-> s = "events/" /\ kw = ∅.
Proof.
  unfold urls.match_route. split.
  - destruct (urls.regex_match [Lit "events/"] s) as [g|] eqn:Hg; [|done].
    apply regex_list in Hg as [-> ->]. by intros [= <-].
  - intros [-> ->]. reflexivity.
Qed.

Lemma match_detail (s : string) (kw : gmap string N) :
  urls.match_route [Lit "events/"; IntConverter "pk"; Lit "/"] s = Some kw <->
  exists d n, d <> "" /\ urls.all_digits d = true /\
              urls.to_python d = Some n /\
              s = "events/" +:+ d +:+ "/" /\ kw = {[ "pk" := n ]}.
Proof.
  unfold urls.match_route. split.
  - destruct (urls.regex_match _ s) as [g|] eqn:Hg; [|done].
    apply regex_detail in Hg as (d & Hne & Hd & -> & ->).
    cbn [urls.convert].
    destruct (urls.to_python d) as [n|] eqn:Hn; [|done].
    intros [= <-]. exists d, n. by rewrite insert_empty.
  - intros (d & n & Hne & Hd & Hn & -> & ->).
    assert (Hg : urls.regex_match [Lit "events/"; IntConverter "pk"; Lit "/"]
                   ("events/" +:+ d +:+ "/") = Some [("pk", d)]).
    { apply regex_detail. by exists d. }
    rewrite Hg. cbn [urls.convert]. by rewrite Hn, insert_empty.
Qed.

Lemma detail_not_list (d : string) :
  d <> "" -> "events/" +:+ d +:+ "/" <> "events/".
Proof.
  intros Hne Heq. destruct d as [|c d]; [done|].
  vm_compute in Heq. discriminate.
Qed.


Lemma str_length_app (s t : string) :
  String.length (s +:+ t) = String.length s + String.length t.
Proof.
  induction s as [|c s IH]; [reflexivity|].
  rewrite app_cons. cbn [String.length]. by rewrite IH.
Qed.

Lemma app_inj_r (t s1 s2 : string) : s1 +:+ t = s2 +:+ t -> s1 = s2.
Proof.
  revert s2. induction s1 as [|c s1 IH]; intros [|c' s2] H.
  - done.
  - apply (f_equal String.length) in H.
    rewrite !str_length_app in H. cbn in H. lia.
  - apply (f_equal String.length) in H.
    rewrite !str_length_app in H. cbn in H. lia.
  - rewrite !app_cons in H. injection H as -> H. f_equal. by apply IH.
Qed.

Lemma resolve_in_spec (rest name : string) (kw : gmap string N) :
  urls.resolve_in urls.urlpatterns rest = Some (name, kw) <->
  (rest = "" /\ name = "home" /\ kw = ∅) \/
  (rest = "events/" /\ name = "event_list" /\ kw = ∅) \/
  (exists d n, d <> "" /\ urls.all_digits d = true /\
               urls.to_python d = Some n /\
               rest = "events/" +:+ d +:+ "/" /\
               name = "event_detail" /\ kw = {[ "pk" := n ]}).
Proof.
  unfold urls.urlpatterns. cbn [urls.resolve_in route url_name].
  destruct (urls.match_route [] rest) as [kw0|] eqn:Hhome.
  { apply match_home in Hhome as [-> ->]. split.
    - intros [= <- <-]. by left.
    - intros [(_ & -> & ->)|[(Habs & _)|(d & n & _ & _ & _ & Habs & _)]];
        [done | done | discriminate]. }
  destruct (urls.match_route [Lit "events/"] rest) as [kw1|] eqn:Hlist.
  { apply match_list in Hlist as [-> ->]. split.
    - intros [= <- <-]. right. by left.
    - intros [(Habs & _)|[(_ & -> & ->)|(d & n & Hne & _ & _ & Habs & _)]];
        [done | done |].
      symmetry in Habs. by apply detail_not_list in Habs. }
  destruct (urls.match_route [Lit "events/"; IntConverter "pk"; Lit "/"] rest)
    as [kw2|] eqn:Hdetail.
  { apply match_detail in Hdetail as (d & n & Hne & Hd & Hn & -> & ->). split.
    - intros [= <- <-]. right. right. by exists d, n.
    - intros [(Habs & _)|[(Habs & _)|(d' & n' & _ & Hd' & Hn' & Heq & -> & ->)]].
      + discriminate.
      + by apply detail_not_list in Habs.
      + apply (inj (String.append "events/")) in Heq.
        apply app_inj_r in Heq as <-. congruence. }
  split; [done|].
  intros [(-> & _)|[(-> & _)|(d & n & Hne & Hd & Hn & -> & _)]].
  - discriminate.
  - discriminate.
  - assert (Hm : urls.match_route [Lit "events/"; IntConverter "pk"; Lit "/"]
                   ("events/" +:+ d +:+ "/") = Some {[ "pk" := n ]}).
    { apply match_detail. by exists d, n. }
    congruence.
Qed.






(** X14: the paths the table routes are exactly ["/"] (home),
    ["/events/"] (the list) and ["/events/" d "/"] for a non-empty run
    [d] of at most 4300 decimal digits (the detail page, with [pk] the
    number [d] reads as); every other path, such as one with a sign, a
    letter, no final slash or a longer run of digits, is not resolved. *)
Theorem X14_resolve_characterised
    (s : string) (name : string) (kw : gmap string N) :
  (urls.resolve s = Some (name, kw) <->
   (s = "/" /\ name = "home" /\ kw = ∅) \/
   (s = "/events/" /\ name = "event_list" /\ kw = ∅) \/
   (exists d u, d <> "" /\ urls.all_digits d = true /\
                String.length d <= 4300 /\
                NilEmpty.uint_of_string d = Some u /\
                s = "/events/" +:+ d +:+ "/" /\
                name = "event_detail" /\ kw = {[ "pk" := N.of_uint u ]})) /\
  (forall d, 4300 < String.length d ->
             urls.resolve ("/events/" +:+ d +:+ "/") = None).
Proof.
  split.
  - unfold urls.resolve.
    destruct (urls.strip_prefix "/" s) as [rest|] eqn:Hs.
    + apply strip_prefix_Some in Hs as ->. rewrite resolve_in_spec.
      rewrite app_cons, app_nil_l. split.
      * intros [(-> & -> & ->)|[(-> & -> & ->)|
                 (d & n & Hne & Hd & Hn & -> & -> & ->)]].
        -- by left.
        -- right. by left.
        -- right. right.
           apply to_python_Some in Hn as (Hlen & u & Hu & ->).
           by exists d, u.
      * intros [(Heq & -> & ->)|[(Heq & -> & ->)|
                 (d & u & Hne & Hd & Hlen & Hu & Heq & -> & ->)]].
        -- injection Heq as ->. by left.
        -- injection Heq as ->. right. by left.
        -- injection Heq as ->. right. right.
           exists d, (N.of_uint u). split; [done|]. split; [done|].
           split; [|done]. apply to_python_Some. eauto.
    + split; [done|].
      intros [(-> & _)|[(-> & _)|(d & u & _ & _ & _ & _ & -> & _)]];
        discriminate Hs.
  - intros d Hlong.
    destruct (urls.resolve ("/events/" +:+ d +:+ "/")) as [[name' kw']|] eqn:Hr;
      [|reflexivity].
    exfalso. unfold urls.resolve in Hr.
    change ("/events/" +:+ d +:+ "/") with ("/" +:+ "events/" +:+ d +:+ "/") in Hr.
    rewrite strip_prefix_app in Hr.
    apply resolve_in_spec in Hr
      as [(Habs & _)|[(Habs & _)|(d' & n & _ & _ & Hn & Heq & _)]].
    + discriminate.
    + apply detail_not_list in Habs; [done|]. intros ->. cbn in Hlong. lia.
    + apply (inj (String.append "events/")) in Heq.
      apply app_inj_r in Heq as <-.
      apply to_python_Some in Hn as [Hlen _]. lia.
Qed.

(** X15: no path is matched by two patterns of the table, so no route
    shadows another and the order of [urlpatterns] does not matter. *)
Theorem X15_patterns_do_not_overlap
    (s : string) (p q : URLPattern)
    (Hp : p ∈ urls.urlpatterns) (Hq : q ∈ urls.urlpatterns)
    (Hmp : is_Some (urls.match_route (route p) s))
    (Hmq : is_Some (urls.match_route (route q) s)) :
  p = q.
Proof.
  destruct Hmp as [kwp Hmp], Hmq as [kwq Hmq].
  unfold urls.urlpatterns in Hp, Hq.
  repeat (apply elem_of_cons in Hp as [->|Hp]); [| | | inversion Hp];
  repeat (apply elem_of_cons in Hq as [->|Hq]);
    try (by inversion Hq); try reflexivity;
    cbn [route] in Hmp, Hmq; exfalso;
    repeat match goal with
    | H : urls.match_route [] _ = Some _ |- _ =>
        apply match_home in H as [-> _]
    | H : urls.match_route [Lit "events/"] _ = Some _ |- _ =>
        apply match_list in H as [? _]
    | H : urls.match_route [Lit "events/"; IntConverter "pk"; Lit "/"] _
          = Some _ |- _ =>
        apply match_detail in H as (? & ? & ? & _ & _ & ? & _)
    end; subst; try discriminate;
    try (by eapply detail_not_list; eauto).
Qed.

Lemma X15_patterns_do_not_overlap_witness :
  {| route := [Lit "events/"; IntConverter "pk"; Lit "/"];
     view_class := "EventDetailView"; url_name := "event_detail" |} =
  {| route := [Lit "events/"; IntConverter "pk"; Lit "/"];
     view_class := "EventDetailView"; url_name := "event_detail" |}.
Proof.
  apply (X15_patterns_do_not_overlap "events/7/").
  - apply elem_of_cons. right. apply elem_of_cons. right.
    apply elem_of_cons. by left.
  - apply elem_of_cons. right. apply elem_of_cons. right.
    apply elem_of_cons. by left.
  - by eexists.
  - by eexists.
Defined.
